(** * camara-cl-api: the urgency pipeline of [src/fetch_urgencias.py]

    A shallow embedding of [src/utils.py] and [src/fetch_urgencias.py] and
    the properties of the resolution pipeline (vote -> bulletin -> project
    id -> urgencies), its caches, its fetcher and its text normalizer.

    Conventions of the embedding.
    - A Python [str] (and [bytes]) is a [string]; one [ascii] stands for one
      character, so the model covers the code points below 256.
    - [Optional[T]] is [option T]; Python truthiness ([if x:], [if not x:])
      is written out at each test.
    - The three module-level dictionaries are [gmap]s carried in [state].
    - The effects of the program (sleeping, HTTP requests, logging) are
      recorded as the list of [event]s a computation emits. *)

From Stdlib Require Import String Ascii List ZArith QArith Lia Bool.
From stdpp Require Import gmap strings list fin_maps pretty.
Import ListNotations.

Open Scope string_scope.
Open Scope list_scope.

(** ** Text normalizer ([utils.clean_text]) *)

Module Text.

(** [str.isspace] on one character, for the code points below 256:
    TAB, LF, VT, FF, CR, the separators 0x1c-0x1f, SPACE, NEL (0x85) and
    NO-BREAK SPACE (0xa0). *)
Definition isspace (c : ascii) : bool :=
  let n := nat_of_ascii c in
  (((9 <=? n) && (n <=? 13)) || ((28 <=? n) && (n <=? 32))
   || (n =? 133) || (n =? 160))%nat.

(** [text.split()] with no separator: the maximal runs of characters that
    are not whitespace, in order.  [word] is the run being read. *)
Fixpoint split_from (word : string) (s : string) : list string :=
  match s with
  | EmptyString =>
      match word with EmptyString => [] | _ => [word] end
  | String c rest =>
      if isspace c then
        match word with
        | EmptyString => split_from EmptyString rest
        | _ => word :: split_from EmptyString rest
        end
      else split_from (word +:+ String c EmptyString) rest
  end.

Definition split (s : string) : list string := split_from EmptyString s.

(** [sep.join(words)] *)
Definition join (sep : string) (words : list string) : string :=
  String.concat sep words.

(** [clean_text(text)]: [" ".join(text.split())] when [text] is truthy
    (neither [None] nor empty), [""] otherwise. *)
Definition clean_text (text : option string) : string :=
  match text with
  | None => ""
  | Some "" => ""
  | Some t => join " " (split t)
  end.

(** [needle in hay] on strings. *)
Fixpoint contains (needle hay : string) : bool :=
  String.prefix needle hay ||
  match hay with
  | EmptyString => false
  | String _ rest => contains needle rest
  end.

(** [bytes.replace(old, new)] for a non-empty [old]: occurrences are
    replaced left to right and do not overlap.  [skip] counts the
    characters of a matched occurrence still to be dropped. *)
Fixpoint replace_from (skip : nat) (old new s : string) : string :=
  match s with
  | EmptyString => EmptyString
  | String c rest =>
      match skip with
      | S k => replace_from k old new rest
      | O =>
          if String.prefix old s
          then new +:+ replace_from (String.length old - 1) old new rest
          else String c (replace_from 0 old new rest)
      end
  end.

Definition replace (old new s : string) : string := replace_from 0 old new s.

(** [bool(s)] for a [str]: not empty. *)
Definition truthy (s : string) : bool := negb (String.eqb s "").

(** [s.isdigit()] for the code points below 256: the string is not empty
    and every character is one of 0-9 or a superscript 1, 2, 3. *)
Definition isdigit_char (c : ascii) : bool :=
  let n := nat_of_ascii c in
  (((48 <=? n) && (n <=? 57)) || (n =? 178) || (n =? 179) || (n =? 185))%nat.

Definition isdigit (s : string) : bool :=
  truthy s && List.forallb isdigit_char (list_ascii_of_string s).

End Text.

(** ** Documents as the parsers hand them to the program *)

#[local] Set Warnings "-register-all".

(** A BeautifulSoup tree: strings, strings that [get_text] leaves out
    (comments and the like) and tags with attributes and contents. *)
Inductive node : Type :=
| NavigableString (s : string)
| Comment (s : string)
| Tag (name : string) (attrs : list (string * string)) (contents : list node).

(** An lxml element: namespace, local name, [.text] and children. *)
Inductive element : Type :=
| Element (ns : option string) (tag : string) (text : option string)
          (children : list element).

Module Soup.

(** Every node below [n], in document order. *)
Fixpoint descendants (n : node) : list node :=
  match n with
  | Tag _ _ contents =>
      (fix walk (l : list node) : list node :=
         match l with
         | [] => []
         | c :: l' => c :: descendants c ++ walk l'
         end) contents
  | _ => []
  end.

Definition is_tag (name : string) (n : node) : bool :=
  match n with
  | Tag name' _ _ => String.eqb name name'
  | _ => false
  end.

(** [n.find_all(name)] *)
Definition find_all (name : string) (n : node) : list node :=
  List.filter (is_tag name) (descendants n).

(** [n.get_text()]: the strings below [n], concatenated. *)
Definition get_text (n : node) : string :=
  match n with
  | NavigableString s => s
  | Comment s => s
  | Tag _ _ _ =>
      String.concat ""
        (flat_map (fun d => match d with NavigableString s => [s] | _ => [] end)
                  (descendants n))
  end.

(** [n.get(key)] *)
Definition get (key : string) (n : node) : option string :=
  match n with
  | Tag _ attrs _ =>
      option_map snd (List.find (fun kv => String.eqb key (fst kv)) attrs)
  | _ => None
  end.

(** [soup.find('a', href=lambda x: x and 'urgencias.aspx' in x)] *)
Definition find_urgencias_link (soup : node) : option node :=
  List.find
    (fun n =>
       is_tag "a" n &&
       match get "href" n with
       | Some x => negb (String.eqb x "") && Text.contains "urgencias.aspx" x
       | None => false
       end)
    (descendants soup).

End Soup.

Module Xml.

Definition children_of (e : element) : list element :=
  match e with Element _ _ _ cs => cs end.

Definition text_of (e : element) : option string :=
  match e with Element _ _ t _ => t end.

Fixpoint descendants (e : element) : list element :=
  match e with
  | Element _ _ _ cs =>
      (fix walk (l : list element) : list element :=
         match l with
         | [] => []
         | c :: l' => c :: descendants c ++ walk l'
         end) cs
  end.

(** [root.find(".//{*}tag")]: the first element below [root] with that
    local name, in any namespace or none. *)
Definition find_any_ns (tag : string) (root : element) : option element :=
  List.find (fun e => match e with Element _ t _ _ => String.eqb tag t end)
            (descendants root).

(** [root.find("tag")]: the first child of [root] with that name and no
    namespace. *)
Definition find_child (tag : string) (root : element) : option element :=
  List.find
    (fun e => match e with
              | Element None t _ _ => String.eqb tag t
              | _ => false
              end)
    (children_of root).

End Xml.

(** ** Data model of the pipeline *)

(** One entry of the urgency table (the dict [u_data]). *)
Record urgency : Type := {
  urgencia_fecha_inicio : string;
  urgencia_fecha_termino : string;
  urgencia_tipo : string;
  urgencia_oficio : string;
  urgencia_mensaje_ing : string;
  urgencia_mensaje_ret : string
}.

(** One row of the output table (the dict [row] of [main]). *)
Record output_row : Type := {
  vote_id : string;
  boletin : string;
  proyecto_id : string;
  urg : urgency
}.

(** ** Effects *)

Inductive level : Type := INFO | WARNING | ERROR.

(** What [requests.get(url, timeout=10)] followed by [raise_for_status()]
    gives: the body, or a [requests.RequestException]. *)
Inductive response : Type :=
| Content (body : string)
| RequestException (e : string).

Inductive event : Type :=
| Sleep (seconds : Q)
| Get (url : string) (r : response)
| Log (lv : level) (msg : string)
| ToCsv (path : string) (rows : list output_row).

(** The module-level caches, and the number of HTTP requests issued so
    far in the run. *)
Record state : Type := {
  vote_to_boletin : gmap string string;
  boletin_to_project_id : gmap string string;
  project_urgencies : gmap string (list urgency);
  requests : nat
}.

Definition initial_state : state :=
  {| vote_to_boletin := ∅; boletin_to_project_id := ∅;
     project_urgencies := ∅; requests := 0 |}.

(** A computation reads and updates the state, and emits events. *)
Definition M (A : Type) : Type := state -> A * state * list event.

Definition ret {A} (a : A) : M A := fun s => (a, s, []).

Definition bind {A B} (m : M A) (f : A -> M B) : M B :=
  fun s =>
    let '(a, s1, e1) := m s in
    let '(b, s2, e2) := f a s1 in
    (b, s2, e1 ++ e2).

Declare Scope py_scope.
Delimit Scope py_scope with py.
Notation "x <- m ;; k" := (bind m (fun x => k))
  (at level 100, m at next level, k at level 200, only parsing) : py_scope.
Notation "m ;; k" := (bind m (fun _ => k))
  (at level 100, k at level 200, only parsing) : py_scope.
Open Scope py_scope.

Definition value {A} (r : A * state * list event) : A := fst (fst r).
Definition final {A} (r : A * state * list event) : state := snd (fst r).
Definition events {A} (r : A * state * list event) : list event := snd r.

Definition emit (e : event) : M unit := fun s => (tt, s, [e]).

(** [time.sleep(seconds)].  Durations are rationals; doubling 0.5 is exact
    in both.  [time.sleep] raises [ValueError] on a negative duration, so
    the properties of the fetcher are stated for delays that are not
    negative. *)
Definition sleep (seconds : Q) : M unit := emit (Sleep seconds).
Definition logging (lv : level) (msg : string) : M unit := emit (Log lv msg).
Definition read {A} (f : state -> A) : M A := fun s => (f s, s, []).
Definition update (f : state -> state) : M unit := fun s => (tt, f s, []).

Definition set_vote_to_boletin (k v : string) (s : state) : state :=
  {| vote_to_boletin := <[k := v]> (vote_to_boletin s);
     boletin_to_project_id := boletin_to_project_id s;
     project_urgencies := project_urgencies s;
     requests := requests s |}.

Definition set_boletin_to_project_id (k v : string) (s : state) : state :=
  {| vote_to_boletin := vote_to_boletin s;
     boletin_to_project_id := <[k := v]> (boletin_to_project_id s);
     project_urgencies := project_urgencies s;
     requests := requests s |}.

Definition set_project_urgencies (k : string) (v : list urgency) (s : state)
  : state :=
  {| vote_to_boletin := vote_to_boletin s;
     boletin_to_project_id := boletin_to_project_id s;
     project_urgencies := <[k := v]> (project_urgencies s);
     requests := requests s |}.

(** ** The program, over its environment *)

Section Program.

(** The remote service: the response to the [n]-th HTTP request of the run
    when it asks for [url].  Failures may be transient. *)
Variable requests_get : nat -> string -> response.

(** [ET.fromstring(content, parser=ET.XMLParser(recover=True))]: an
    [XMLSyntaxError] (left), or the recovered root, which may be [None]. *)
Variable ET_fromstring : string -> string + option element.

(** [BeautifulSoup(content, 'lxml')]: an exception (left) or the tree. *)
Variable BeautifulSoup : string -> string + node.

(** [urllib.parse.parse_qs(urllib.parse.urlparse(href).query)
       .get('prmID', [''])[0]] *)
Variable query_prmID : string -> string.

(** *** [utils.py] *)

Definition http_get (url : string) : M response :=
  fun s =>
    let r := requests_get (requests s) url in
    (r,
     {| vote_to_boletin := vote_to_boletin s;
        boletin_to_project_id := boletin_to_project_id s;
        project_urgencies := project_urgencies s;
        requests := S (requests s) |},
     [Get url r]).

(** The [for attempt in range(retries)] loop of [fetch_content], from
    iteration [attempt] with [todo] iterations left.  [Some body] is the
    [return response.content] inside the loop; [None] is the loop running
    to its end. *)
Fixpoint attempts (url : string) (sleep_time : Q) (attempt todo : nat)
  : M (option string) :=
  match todo with
  | O => ret None
  | S todo' =>
      sleep sleep_time ;;
      r <- http_get url ;;
      match r with
      | Content body => ret (Some body)
      | RequestException e =>
          logging WARNING
            ("Attempt " +:+ pretty (attempt + 1)%nat +:+ " failed for "
             +:+ url +:+ ": " +:+ e) ;;
          sleep (sleep_time * 2)%Q ;;
          attempts url sleep_time (S attempt) todo'
      end
  end.

Definition fetch_content_with (url : string) (retries : Z) (sleep_time : Q)
  : M (option string) :=
  r <- attempts url sleep_time 0 (Z.to_nat retries) ;;
  match r with
  | Some body => ret (Some body)
  | None =>
      logging ERROR
        ("Failed to fetch " +:+ url +:+ " after " +:+ pretty retries
         +:+ " attempts.") ;;
      ret None
  end.

(** [fetch_content(url)] with the defaults [retries=3], [sleep_time=0.5]. *)
Definition default_retries : Z := 3.
Definition default_sleep_time : Q := 1 # 2.

Definition fetch_content (url : string) : M (option string) :=
  fetch_content_with url default_retries default_sleep_time.

Definition parse_xml (content : string) : M (option element) :=
  let cleaned_content := Text.replace "&nbsp;" " " content in
  match ET_fromstring cleaned_content with
  | inr root => ret root
  | inl e => logging ERROR ("XML parsing error: " +:+ e) ;; ret None
  end.

Definition parse_html (content : string) : M (option node) :=
  match BeautifulSoup content with
  | inr soup => ret (Some soup)
  | inl e => logging ERROR ("HTML parsing error: " +:+ e) ;; ret None
  end.

(** *** [fetch_urgencias.py] *)

Definition vote_url (vote_id : string) : string :=
  "https://opendata.camara.cl/camaradiputados/pages/legislativo/retornarVotacionDetalle.aspx?prmID="
  +:+ vote_id.

Definition tramitacion_url (boletin : string) : string :=
  "https://www.camara.cl/legislacion/ProyectosDeLey/tramitacion.aspx?prmBoletin="
  +:+ boletin.

Definition urgencias_url (project_id boletin : string) : string :=
  "https://www.camara.cl/legislacion/ProyectosDeLey/urgencias.aspx?prmID="
  +:+ project_id +:+ "&prmBOLETIN=" +:+ boletin.

(** The bulletin of a parsed vote record: [root.find(".//{*}Boletin")],
    then [root.find("Boletin")], then [clean_text(found.text)]. *)
Definition boletin_of_record (root : element) : string :=
  let found :=
    match Xml.find_any_ns "Boletin" root with
    | Some f => Some f
    | None => Xml.find_child "Boletin" root
    end in
  match found with
  | Some f => Text.clean_text (Xml.text_of f)
  | None => ""
  end.

Definition fetch_boletin_for_vote (vote_id : string) : M string :=
  cached <- read (fun s => vote_to_boletin s !! vote_id) ;;
  match cached with
  | Some b => ret b
  | None =>
      content <- fetch_content (vote_url vote_id) ;;
      match content with
      | None => ret ""
      | Some body =>
          if negb (Text.truthy body) then ret "" else
          root <- parse_xml body ;;
          match root with
          | None => ret ""
          | Some root =>
              let boletin := boletin_of_record root in
              (if Text.truthy boletin
               then update (set_vote_to_boletin vote_id boletin)
               else ret tt) ;;
              ret boletin
          end
      end
  end.

(** The project id a tramitacion page gives: the [prmID] of the query of
    the first link to [urgencias.aspx], [""] when there is none. *)
Definition prmID_of_page (soup : node) : string :=
  match Soup.find_urgencias_link soup with
  | Some link =>
      match Soup.get "href" link with
      | Some href => query_prmID href
      | None => ""
      end
  | None => ""
  end.

Definition fetch_proyecto_id_from_tramitacion (boletin : string) : M string :=
  if negb (Text.truthy boletin) then ret "" else
  cached <- read (fun s => boletin_to_project_id s !! boletin) ;;
  match cached with
  | Some p => ret p
  | None =>
      content <- fetch_content (tramitacion_url boletin) ;;
      match content with
      | None => ret ""
      | Some body =>
          if negb (Text.truthy body) then ret "" else
          soup <- parse_html body ;;
          match soup with
          | None => ret ""
          | Some soup =>
              let prmID := prmID_of_page soup in
              if Text.truthy prmID
              then update (set_boletin_to_project_id boletin prmID) ;;
                   ret prmID
              else ret ""
          end
      end
  end.

(** The [for table in tables] loop with its [break]. *)
Fixpoint find_target_table (tables : list node) : option node :=
  match tables with
  | [] => None
  | table :: rest =>
      if Text.contains "Fecha Inicio" (Soup.get_text table)
         || Text.contains "Tipo de urgencia" (Soup.get_text table)
      then Some table
      else find_target_table rest
  end.

(** [clean_text(cols[i].get_text())].  Every use below is under the test
    [len(cols) >= 5] (and [len(cols) > 5] for index 5), so the index is
    in range and the default is never read. *)
Definition cell (cols : list node) (i : nat) : string :=
  Text.clean_text (Some (Soup.get_text (nth i cols (NavigableString "")))).

(** One iteration of [for row in rows[1:]]. *)
Definition row_step (urgencies : list urgency) (row : node) : list urgency :=
  let cols := Soup.find_all "td" row in
  if (length cols <? 5)%nat then urgencies
  else
    urgencies ++
    [ {| urgencia_fecha_inicio := cell cols 0;
         urgencia_fecha_termino := cell cols 1;
         urgencia_tipo := cell cols 2;
         urgencia_oficio := cell cols 3;
         urgencia_mensaje_ing := cell cols 4;
         urgencia_mensaje_ret :=
           if (5 <? length cols)%nat then cell cols 5 else "" |} ].

(** The table part of [fetch_urgencias], from [urgencies = []] to the
    filled list. *)
Definition urgencies_of_page (soup : node) : list urgency :=
  let tables := Soup.find_all "table" soup in
  match find_target_table tables with
  | Some target_table =>
      let rows := Soup.find_all "tr" target_table in
      fold_left row_step (tl rows) []
  | None => []
  end.

Definition cache_key (project_id boletin : string) : string :=
  project_id +:+ "_" +:+ boletin.

Definition fetch_urgencias (project_id boletin : string) : M (list urgency) :=
  if negb (Text.truthy project_id) then ret [] else
  cached <- read (fun s => project_urgencies s !! cache_key project_id boletin) ;;
  match cached with
  | Some l => ret l
  | None =>
      content <- fetch_content (urgencias_url project_id boletin) ;;
      match content with
      | None => ret []
      | Some body =>
          if negb (Text.truthy body) then ret [] else
          soup <- parse_html body ;;
          match soup with
          | None => ret []
          | Some soup =>
              let urgencies := urgencies_of_page soup in
              update (set_project_urgencies (cache_key project_id boletin)
                                            urgencies) ;;
              ret urgencies
          end
      end
  end.

Definition no_urgency : urgency :=
  {| urgencia_fecha_inicio := ""; urgencia_fecha_termino := "";
     urgencia_tipo := ""; urgencia_oficio := "";
     urgencia_mensaje_ing := ""; urgencia_mensaje_ret := "" |}.

Definition make_row (v b p : string) (u : urgency) : output_row :=
  {| vote_id := v; boletin := b; proyecto_id := p; urg := u |}.

(** One iteration of [for vote_id in vote_ids] in [main]. *)
Definition process_vote (vote_id : string) (results : list output_row)
  : M (list output_row) :=
  boletin <- fetch_boletin_for_vote vote_id ;;
  if negb (Text.truthy boletin) then ret results else
  project_id <- fetch_proyecto_id_from_tramitacion boletin ;;
  if negb (Text.truthy project_id) then
    logging WARNING ("Could not find project ID for boletin " +:+ boletin) ;;
    ret results
  else
  urgency_list <- fetch_urgencias project_id boletin ;;
  match urgency_list with
  | _ :: _ =>
      ret (fold_left
             (fun results urg =>
                results ++ [make_row vote_id boletin project_id urg])
             urgency_list results)
  | [] =>
      ret (results ++ [make_row vote_id boletin project_id no_urgency])
  end.

Fixpoint for_votes (vote_ids : list string) (results : list output_row)
  : M (list output_row) :=
  match vote_ids with
  | [] => ret results
  | vote_id :: rest =>
      results' <- process_vote vote_id results ;;
      for_votes rest results'
  end.

(** What [main] finds at [input_path]. *)
Inductive input_file : Type :=
| NotFound
| ReadError (e : string)
| DataFrame (columns : list string).

Definition input_path : string := "dataverse_files/matriz__periodo_2022_26.csv".
Definition output_path : string := "outputs/votaciones_urgencias_2022_26.csv".

Definition main (input : input_file) : M unit :=
  logging INFO "Starting Script 2: Fetch Urgencias" ;;
  match input with
  | NotFound => logging ERROR ("Input file not found: " +:+ input_path)
  | ReadError e => logging ERROR ("Error reading CSV: " +:+ e)
  | DataFrame columns =>
      let vote_ids := List.filter Text.isdigit columns in
      logging INFO ("Found " +:+ pretty (length vote_ids)
                    +:+ " vote IDs to process.") ;;
      results <- for_votes vote_ids [] ;;
      match results with
      | _ :: _ =>
          emit (ToCsv output_path results) ;;
          logging INFO ("Saved urgencies to " +:+ output_path)
      | [] => logging WARNING "No results to save."
      end
  end.

End Program.

(** * Observations, invariants and reference definitions *)

(** ** Observations on event traces *)

Definition is_get_of (url : string) (e : event) : bool :=
  match e with Get u _ => String.eqb u url | _ => false end.

(** Number of HTTP requests for [url] in a trace. *)
Definition gets_of (url : string) (evs : list event) : nat :=
  length (List.filter (is_get_of url) evs).

Definition is_warning (e : event) : bool :=
  match e with Log WARNING _ => true | _ => false end.

Definition warnings (evs : list event) : nat :=
  length (List.filter is_warning evs).

Definition is_failed_get (e : event) : bool :=
  match e with Get _ (RequestException _) => true | _ => false end.

Definition failed_gets (evs : list event) : nat :=
  length (List.filter is_failed_get evs).

(** The durations slept, in order. *)
Definition sleeps (evs : list event) : list Q :=
  flat_map (fun e => match e with Sleep d => [d] | _ => [] end) evs.

(** The total time slept before each HTTP request since the previous one. *)
Fixpoint waits_from (acc : Q) (evs : list event) : list Q :=
  match evs with
  | [] => []
  | Sleep d :: rest => waits_from (acc + d)%Q rest
  | Get _ _ :: rest => acc :: waits_from 0%Q rest
  | _ :: rest => waits_from acc rest
  end.

Definition waits_before_attempts (evs : list event) : list Q :=
  waits_from 0%Q evs.

(** A doubling backoff, in the spec's words: each wait is twice the one
    before it. *)
Fixpoint is_doubling (waits : list Q) : bool :=
  match waits with
  | a :: (b :: _) as rest => Qeq_bool b (a * 2)%Q && is_doubling rest
  | _ => true
  end.

Definition failed (r : response) : bool :=
  match r with RequestException _ => true | Content _ => false end.

Definition exception_text (r : response) : string :=
  match r with RequestException e => e | Content _ => "" end.

Definition with_requests (n : nat) (s : state) : state :=
  {| vote_to_boletin := vote_to_boletin s;
     boletin_to_project_id := boletin_to_project_id s;
     project_urgencies := project_urgencies s;
     requests := n |}.

Section Expected.
Variable requests_get : nat -> string -> response.
Variable BeautifulSoup : string -> string + node.

(** The events of [todo] failed iterations of the retry loop, starting at
    iteration [attempt] with [n] requests issued before. *)
Fixpoint failure_trace (url : string) (sleep_time : Q) (attempt n todo : nat)
  : list event :=
  match todo with
  | O => []
  | S todo' =>
      [Sleep sleep_time;
       Get url (requests_get n url);
       Log WARNING ("Attempt " +:+ pretty (attempt + 1)%nat +:+ " failed for "
                    +:+ url +:+ ": " +:+ exception_text (requests_get n url));
       Sleep (sleep_time * 2)%Q]
      ++ failure_trace url sleep_time (S attempt) (S n) todo'
  end.

(** The page a lookup of [url] from state [s] gets: fetched, not empty
    and parsed; [None] when the stage fails. *)
Definition page_of (url : string) (s : state) : option node :=
  match value (fetch_content requests_get url s) with
  | Some body =>
      if Text.truthy body then
        match BeautifulSoup body with
        | inr soup => Some soup
        | inl _ => None
        end
      else None
  | None => None
  end.

End Expected.

(** ** Caches and stage traces *)

(** The caches hold only values that are not empty. *)
Definition cache_ok (s : state) : Prop :=
  map_Forall (fun _ v => v <> "") (vote_to_boletin s) /\
  map_Forall (fun _ v => v <> "") (boletin_to_project_id s).

Definition same_caches (s s' : state) : Prop :=
  vote_to_boletin s' = vote_to_boletin s /\
  boletin_to_project_id s' = boletin_to_project_id s /\
  project_urgencies s' = project_urgencies s.

(** An event of a lookup of [url]: any request is for [url], and nothing
    is written. *)
Definition own (url : string) (e : event) : Prop :=
  match e with
  | Get u _ => u = url
  | ToCsv _ _ => False
  | _ => True
  end.

(** The trace of a stage that looks [url] up: its requests are for [url]
    and every warning comes with a failed request. *)
Definition fetch_trace (url : string) (evs : list event) : Prop :=
  Forall (own url) evs /\ warnings evs = failed_gets evs.

(** The project id of bulletin [b] is in the cache. *)
Definition known (b pid : string) (s : state) : Prop :=
  boletin_to_project_id s !! b = Some pid.

(** A computation that keeps a known project id and issues no request
    for that bulletin's tramitacion page. *)
Definition keeps (b pid : string) {A} (m : M A) : Prop :=
  forall s, known b pid s ->
    known b pid (final (m s)) /\
    gets_of (tramitacion_url b) (events (m s)) = 0%nat.

(** The rows [main] appends for a resolved chain. *)
Definition rows_for (v b p : string) (urgency_list : list urgency)
  : list output_row :=
  match urgency_list with
  | [] => [make_row v b p no_urgency]
  | _ :: _ => map (make_row v b p) urgency_list
  end.

(** ** Words of a normalized text *)

Fixpoint no_space (s : string) : bool :=
  match s with
  | EmptyString => true
  | String c rest => negb (Text.isspace c) && no_space rest
  end.

Definition is_word (w : string) : Prop := w <> "" /\ no_space w = true.

(** ** The urgency table locator *)

(** The locator in the spec's words: the first table, in document order,
    whose text holds a marker phrase; its rows after the first; one record
    per row with at least five cells. *)
Definition has_marker (table : node) : bool :=
  Text.contains "Fecha Inicio" (Soup.get_text table)
  || Text.contains "Tipo de urgencia" (Soup.get_text table).

Definition record_of_cells (cols : list node) : urgency :=
  {| urgencia_fecha_inicio := cell cols 0;
     urgencia_fecha_termino := cell cols 1;
     urgencia_tipo := cell cols 2;
     urgencia_oficio := cell cols 3;
     urgencia_mensaje_ing := cell cols 4;
     urgencia_mensaje_ret := if (5 <? length cols)%nat then cell cols 5 else "" |}.

Definition records_of_rows (rows : list node) : list urgency :=
  map (fun row => record_of_cells (Soup.find_all "td" row))
      (List.filter (fun row => (5 <=? length (Soup.find_all "td" row))%nat) rows).

Definition locate_urgencies (soup : node) : list urgency :=
  match List.find has_marker (Soup.find_all "table" soup) with
  | Some table => records_of_rows (skipn 1 (Soup.find_all "tr" table))
  | None => []
  end.

(** ** Concrete documents and services *)

Definition always_failing (n : nat) (url : string) : response :=
  RequestException "timeout".

Definition td (s : string) : node := Tag "td" [] [NavigableString s].

Definition five_cell_row : node :=
  Tag "tr" [] [td "01/03/2023"; td "16/03/2023"; td "Suma"; td "123-371";
               td " 001-371 "].

Definition page_without_urgency_table : node :=
  Tag "[document]" []
    [Tag "table" [] [Tag "tr" [] [td "Menu"]; Tag "tr" [] [td "Inicio"]]].

(** A vote record without a [Boletin] element, served at the first
    attempt. *)
Definition record_without_boletin : element :=
  Element None "Votacion" None [Element None "Fecha" (Some "2022-08-12") []].

Definition serve_record_without_boletin (n : nat) (url : string) : response :=
  Content "<Votacion><Fecha>2022-08-12</Fecha></Votacion>".

Definition parse_record_without_boletin (content : string)
  : string + option element :=
  inr (Some record_without_boletin).

Definition no_html (content : string) : string + node := inl "not a page".

Definition no_query (href : string) : string := "".

(** Two votes of bulletin 9876-06 whose tramitacion page has no link to
    [urgencias.aspx]. *)
Definition record_9876 : element :=
  Element None "Votacion" None
    [Element None "Fecha" (Some "2022-08-12") [];
     Element None "Boletin" (Some " 9876-06 ") []].

Definition parse_record_9876 (content : string) : string + option element :=
  inr (Some record_9876).

Definition page_without_link : node :=
  Tag "[document]" []
    [Tag "html" []
       [Tag "body" []
          [Tag "a" [("href", "votaciones.aspx?prmBoletin=9876-06")]
             [NavigableString "Votaciones"]]]].

Definition serve_without_link (n : nat) (url : string) : response :=
  if String.prefix "https://opendata.camara.cl/" url
  then Content "<Votacion><Boletin> 9876-06 </Boletin></Votacion>"
  else Content "<html><body><a href=votaciones.aspx>Votaciones</a></body></html>".

Definition parse_page_without_link (content : string) : string + node :=
  inr page_without_link.

(** The scenario of the spec: vote 12345 (and 12346) of bulletin 9876-06,
    a tramitacion page linking to project 555, and an urgency table with
    a header and two rows. *)
Definition tramitacion_page : node :=
  Tag "[document]" []
    [Tag "html" []
       [Tag "body" []
          [Tag "a" [("href", "tramitacion.aspx?prmBoletin=9876-06")]
             [NavigableString "Tramitacion"];
           Tag "a" [("class", "link");
                    ("href", "urgencias.aspx?prmID=555&prmBOLETIN=9876-06")]
             [NavigableString "Urgencias"]]]].

Definition th (s : string) : node := Tag "th" [] [NavigableString s].

Definition urgencias_page : node :=
  Tag "[document]" []
    [Tag "html" []
       [Tag "body" []
          [Tag "table" [] [Tag "tr" [] [td "Menu"]];
           Tag "table" []
             [Tag "tr" [] [th "Fecha Inicio"; th "Fecha termino"; th "Tipo";
                           th "Oficio"; th "Mensaje ingreso";
                           th "Mensaje retiro"];
              Tag "tr" [] [td "01/03/2023"; td "16/03/2023"; td "Suma";
                           td "123-371"; td "001-371"];
              Tag "tr" [] [td "sin datos"];
              Tag "tr" [] [td "17/03/2023"; td "01/04/2023";
                           td " Discusion
                                inmediata "; td "130-371"; td "010-371";
                           td "015-371"]]]]].

Definition serve_scenario (n : nat) (url : string) : response :=
  if String.eqb url (vote_url "12345") || String.eqb url (vote_url "12346")
  then Content "<Votacion><Boletin> 9876-06 </Boletin></Votacion>"
  else if String.eqb url (tramitacion_url "9876-06") then Content "tramitacion"
  else if String.eqb url (urgencias_url "555" "9876-06") then Content "urgencias"
  else RequestException "404 Client Error".

Definition parse_scenario_page (content : string) : string + node :=
  if String.eqb content "tramitacion" then inr tramitacion_page
  else if String.eqb content "urgencias" then inr urgencias_page
  else inl "unexpected page".

Definition scenario_query (href : string) : string :=
  if String.eqb href "urgencias.aspx?prmID=555&prmBOLETIN=9876-06"
  then "555" else "".

(** * Further definitions *)

(** ** Shape of a normalized text *)

(** A text with no whitespace but single spaces between characters that
    are not whitespace.  [after_space] tells that the text so far is empty
    or ends with a space. *)
Fixpoint normalized_from (after_space : bool) (s : string) : bool :=
  match s with
  | EmptyString => negb after_space
  | String c rest =>
      if Text.isspace c
      then Ascii.eqb c " " && negb after_space && normalized_from true rest
      else normalized_from false rest
  end.

Definition normalized (s : string) : bool :=
  match s with
  | EmptyString => true
  | _ => normalized_from true s
  end.

(** The characters of a text that are not whitespace, in order. *)
Fixpoint non_space (s : string) : string :=
  match s with
  | EmptyString => EmptyString
  | String c rest =>
      if Text.isspace c then non_space rest else String c (non_space rest)
  end.

Definition text_of_option (x : option string) : string :=
  match x with Some s => s | None => "" end.

Definition is_empty (s : string) : bool :=
  match s with EmptyString => true | _ => false end.

(** ** Growth of the caches and writes of a run *)

(** Every entry of the caches of [s] is an entry of the caches of [s']. *)
Definition grows (s s' : state) : Prop :=
  vote_to_boletin s ⊆ vote_to_boletin s' /\
  boletin_to_project_id s ⊆ boletin_to_project_id s' /\
  project_urgencies s ⊆ project_urgencies s'.

(** The caches grow and stay free of empty values. *)
Definition extends (s s' : state) : Prop :=
  grows s s' /\ (cache_ok s -> cache_ok s').

(** The tables written to disk, in order. *)
Definition csv_writes (evs : list event) : list (string * list output_row) :=
  flat_map (fun e => match e with ToCsv p rows => [(p, rows)] | _ => [] end)
           evs.

(** Number of HTTP requests in a trace, whatever the URL. *)
Definition requests_in (evs : list event) : nat :=
  length (List.filter (fun e => match e with Get _ _ => true | _ => false end)
                      evs).

(** A row of seed [v]: it carries [v] and a resolved chain. *)
Definition row_of_seed (v : string) (r : output_row) : Prop :=
  vote_id r = v /\ boletin r <> "" /\ proyecto_id r <> "".

(** Every text of an urgency record is normalized. *)
Definition urgency_normalized (u : urgency) : bool :=
  normalized (urgencia_fecha_inicio u) && normalized (urgencia_fecha_termino u)
  && normalized (urgencia_tipo u) && normalized (urgencia_oficio u)
  && normalized (urgencia_mensaje_ing u) && normalized (urgencia_mensaje_ret u).

(** * The metadata script ([src/fetch_votaciones.py]) *)

Module Votaciones.

(** The dict [data] of [fetch_votacion_detalle]. *)
Record detalle : Type := {
  vote_id : string;
  fecha : string;
  tipo : string;
  resultado : string;
  quorum : string;
  boletin : string;
  sesion_id : string;
  sesion_numero : string;
  sesion_fecha : string;
  sesion_tipo : string
}.

(** The dict [row_data] of [fetch_votaciones_boletin]. *)
Record bulletin_voting : Type := {
  boletin_context : string;
  raw_data : string
}.

(** The dict [row] of [main]. *)
Record meta_row : Type := {
  row_vote_id : string;
  row_boletin : string;
  row_fecha : string;
  tipo_votacion : string;
  row_resultado : string;
  row_quorum : string;
  row_sesion_id : string;
  row_sesion_numero : string;
  descripcion_articulo : string;
  contexto_tramite : string
}.

(** The state of this script: the network side of [state] and the
    module-level [boletin_cache]. *)
Record vstate : Type := {
  net : state;
  boletin_cache : gmap string (list bulletin_voting)
}.

Definition initial_vstate : vstate :=
  {| net := initial_state; boletin_cache := ∅ |}.

Definition MV (A : Type) : Type := vstate -> A * vstate * list event.

Definition retV {A} (a : A) : MV A := fun s => (a, s, []).

Definition bindV {A B} (m : MV A) (f : A -> MV B) : MV B :=
  fun s =>
    let '(a, s1, e1) := m s in
    let '(b, s2, e2) := f a s1 in
    (b, s2, e1 ++ e2).

(** A computation of [utils.py] run in this script. *)
Definition lift {A} (m : M A) : MV A :=
  fun s =>
    let '(a, n, e) := m (net s) in
    (a, {| net := n; boletin_cache := boletin_cache s |}, e).

Definition valueV {A} (r : A * vstate * list event) : A := fst (fst r).
Definition finalV {A} (r : A * vstate * list event) : vstate := snd (fst r).
Definition eventsV {A} (r : A * vstate * list event) : list event := snd r.

Declare Scope votaciones_scope.
Delimit Scope votaciones_scope with votaciones.
Notation "x <- m ;; k" := (bindV m (fun x => k))
  (at level 100, m at next level, k at level 200, only parsing)
  : votaciones_scope.
Notation "m ;; k" := (bindV m (fun _ => k))
  (at level 100, k at level 200, only parsing) : votaciones_scope.

Definition readV {A} (f : vstate -> A) : MV A := fun s => (f s, s, []).
Definition updateV (f : vstate -> vstate) : MV unit :=
  fun s => (tt, f s, []).

Definition set_boletin_cache (k : string) (v : list bulletin_voting)
  (s : vstate) : vstate :=
  {| net := net s; boletin_cache := <[k := v]> (boletin_cache s) |}.

Definition votacion_boletin_url (boletin : string) : string :=
  "https://opendata.camara.cl/pages/votacion_boletin.aspx?prmBoletin="
  +:+ boletin.

(** The helper [get_text(element, tag)] of [fetch_votacion_detalle]. *)
Definition get_text (e : element) (tag : string) : string :=
  let found :=
    match Xml.find_any_ns tag e with
    | Some f => Some f
    | None => Xml.find_child tag e
    end in
  match found with
  | Some f => Text.clean_text (Xml.text_of f)
  | None => ""
  end.

(** [n.find_all(names)] for a list of tag names. *)
Definition find_all_of (names : list string) (n : node) : list node :=
  List.filter (fun d => existsb (fun name => Soup.is_tag name d) names)
              (Soup.descendants n).

(** One iteration of [for row in rows[1:]]. *)
Definition row_step (boletin : string) (votaciones : list bulletin_voting)
  (row : node) : list bulletin_voting :=
  let cols := Soup.find_all "td" row in
  if (length cols <? 4)%nat then votaciones
  else
    votaciones ++
    [ {| boletin_context := boletin;
         raw_data :=
           Text.join " | "
             (map (fun c => Text.clean_text (Some (Soup.get_text c))) cols) |} ].

(** One iteration of [for table in tables]: [continue] when the table
    has no row or no header cell containing "Fecha". *)
Definition table_step (boletin : string) (votaciones : list bulletin_voting)
  (table : node) : list bulletin_voting :=
  let rows := Soup.find_all "tr" table in
  match rows with
  | [] => votaciones
  | first :: rest =>
      let headers :=
        map (fun th => Text.clean_text (Some (Soup.get_text th)))
            (find_all_of ["th"; "td"] first) in
      if negb (existsb (fun h => Text.contains "Fecha" h) headers)
      then votaciones
      else fold_left (row_step boletin) rest votaciones
  end.

Definition votaciones_of_page (boletin : string) (soup : node)
  : list bulletin_voting :=
  fold_left (table_step boletin) (Soup.find_all "table" soup) [].

Section Script.

Variable requests_get : nat -> string -> response.
Variable ET_fromstring : string -> string + option element.
Variable BeautifulSoup : string -> string + node.

(** [element.get(key)] of lxml: the attribute, if the element has it. *)
Variable element_get : element -> string -> option string.

Open Scope votaciones_scope.

Definition fetch_votacion_detalle (vote_id : string) : MV (option detalle) :=
  content <- lift (fetch_content requests_get (vote_url vote_id)) ;;
  match content with
  | None => retV None
  | Some body =>
      if negb (Text.truthy body) then retV None else
      root <- lift (parse_xml ET_fromstring body) ;;
      match root with
      | None => retV None
      | Some root =>
          let sesion :=
            match Xml.find_any_ns "Sesion" root with
            | Some f => Some f
            | None => Xml.find_child "Sesion" root
            end in
          retV (Some
            {| vote_id := vote_id;
               fecha := get_text root "Fecha";
               tipo := get_text root "Tipo";
               resultado := get_text root "Resultado";
               quorum := get_text root "Quorum";
               boletin := get_text root "Boletin";
               sesion_id :=
                 match sesion with
                 | Some se =>
                     match element_get se "ID" with
                     | Some id => id
                     | None => ""
                     end
                 | None => ""
                 end;
               sesion_numero :=
                 match sesion with
                 | Some se => get_text se "Numero" | None => "" end;
               sesion_fecha :=
                 match sesion with
                 | Some se => get_text se "Fecha" | None => "" end;
               sesion_tipo :=
                 match sesion with
                 | Some se => get_text se "Tipo" | None => "" end |})
      end
  end.

Definition fetch_votaciones_boletin (boletin : string)
  : MV (list bulletin_voting) :=
  if negb (Text.truthy boletin) then retV [] else
  cached <- readV (fun s => boletin_cache s !! boletin) ;;
  match cached with
  | Some l => retV l
  | None =>
      content <- lift (fetch_content requests_get
                         (votacion_boletin_url boletin)) ;;
      match content with
      | None => retV []
      | Some body =>
          if negb (Text.truthy body) then retV [] else
          soup <- lift (parse_html BeautifulSoup body) ;;
          match soup with
          | None => retV []
          | Some soup =>
              let votaciones := votaciones_of_page boletin soup in
              updateV (set_boletin_cache boletin votaciones) ;;
              retV votaciones
          end
      end
  end.

(** One iteration of [for vote_id in vote_ids] in [main]. *)
Definition process_vote (vote_id : string) (results : list meta_row)
  : MV (list meta_row) :=
  details <- fetch_votacion_detalle vote_id ;;
  match details with
  | None =>
      lift (logging WARNING
              ("Could not fetch details for vote_id " +:+ vote_id)) ;;
      retV results
  | Some details =>
      let boletin := boletin details in
      (if Text.truthy boletin
       then (_ <- fetch_votaciones_boletin boletin ;; retV tt)
       else retV tt) ;;
      retV (results ++
            [ {| row_vote_id := vote_id;
                 row_boletin := boletin;
                 row_fecha := fecha details;
                 tipo_votacion := tipo details;
                 row_resultado := resultado details;
                 row_quorum := quorum details;
                 row_sesion_id := sesion_id details;
                 row_sesion_numero := sesion_numero details;
                 descripcion_articulo := "";
                 contexto_tramite := "" |} ])
  end.

Fixpoint for_votes (vote_ids : list string) (results : list meta_row)
  : MV (list meta_row) :=
  match vote_ids with
  | [] => retV results
  | vote_id :: rest =>
      results' <- process_vote vote_id results ;;
      for_votes rest results'
  end.

End Script.

End Votaciones.

(** ** Reference definitions for the metadata script *)

(** The table has a first row with a cell whose text contains "Fecha". *)
Definition has_fecha_header (table : node) : bool :=
  match Soup.find_all "tr" table with
  | [] => false
  | first :: _ =>
      existsb (fun h => Text.contains "Fecha" h)
        (map (fun th => Text.clean_text (Some (Soup.get_text th)))
             (Votaciones.find_all_of ["th"; "td"] first))
  end.

Definition voting_of_row (boletin : string) (row : node)
  : Votaciones.bulletin_voting :=
  {| Votaciones.boletin_context := boletin;
     Votaciones.raw_data :=
       Text.join " | "
         (map (fun c => Text.clean_text (Some (Soup.get_text c)))
              (Soup.find_all "td" row)) |}.

(** The rows of one table: those after the first with four cells or
    more. *)
Definition votings_of_table (boletin : string) (table : node)
  : list Votaciones.bulletin_voting :=
  map (voting_of_row boletin)
      (List.filter (fun row => (4 <=? length (Soup.find_all "td" row))%nat)
                   (skipn 1 (Soup.find_all "tr" table))).

(** Every table with a "Fecha" header contributes, in document order. *)
Definition locate_votaciones (boletin : string) (soup : node)
  : list Votaciones.bulletin_voting :=
  flat_map (votings_of_table boletin)
           (List.filter has_fecha_header (Soup.find_all "table" soup)).

(** The warnings of the driver of the metadata script. *)
Definition is_details_warning (e : event) : bool :=
  match e with
  | Log WARNING msg =>
      String.prefix "Could not fetch details for vote_id " msg
  | _ => false
  end.

Definition details_warnings (evs : list event) : nat :=
  length (List.filter is_details_warning evs).

(** An event of the fetcher or of a parser: no table is written, nothing
    is logged at level INFO, and every warning is an attempt's. *)
Definition fetcher_event (e : event) : Prop :=
  match e with
  | Log WARNING msg => String.prefix "Attempt " msg = true
  | Log INFO _ => False
  | ToCsv _ _ => False
  | _ => True
  end.

(** ** More concrete documents and services *)

Definition seven_cell_row : node :=
  Tag "tr" [] [td "01/03/2023"; td "16/03/2023"; td "Suma"; td "123-371";
               td "001-371"; td " 002-371"; td "ver"].

(** A service that times out once and then answers. *)
Definition flaky (n : nat) (url : string) : response :=
  if (n =? 0)%nat then RequestException "timeout" else Content "<ok/>".

Definition serve_anything (n : nat) (url : string) : response :=
  Content "<html></html>".

Definition parse_urgencias_page (content : string) : string + node :=
  inr urgencias_page.

(** A bulletin page with a menu table and a table of votings. *)
Definition votaciones_page : node :=
  Tag "[document]" []
    [Tag "table" [] [Tag "tr" [] [td "Inicio"]; Tag "tr" [] [td "Ayuda"]];
     Tag "table" []
       [Tag "tr" [] [th "Fecha"; th "Tipo"; th "Resultado"; th "Quorum"];
        Tag "tr" [] [td "12 ago. 2022"; td "General"; td " Aprobado ";
                     td "Simple"];
        Tag "tr" [] [td "sin datos"]]].

Definition parse_votaciones_page (content : string) : string + node :=
  inr votaciones_page.

Definition no_attributes (e : element) (key : string) : option string := None.

(** * Properties *)

Example clean_text_ex1 :
  Text.clean_text (Some "  12 ago.
   2022 ") = "12 ago. 2022".
Proof. reflexivity. Qed.

Example replace_ex1 :
  Text.replace "&nbsp;" " " "a&nbsp;b&nbsp;&nbsp;c" = "a b  c".
Proof. reflexivity. Qed.

(** ** The text normalizer *)

Section Normalizer.
Import Text.

Lemma append_cons a s t : String a s +:+ t = String a (s +:+ t).
Proof. reflexivity. Qed.

Lemma append_nil t : "" +:+ t = t.
Proof. reflexivity. Qed.

Lemma no_space_snoc w c :
  no_space w = true -> isspace c = false ->
  no_space (w +:+ String c "") = true.
Proof.
  induction w as [|a w IH]; intros Hw Hc.
  - rewrite append_nil. simpl. now rewrite Hc.
  - rewrite append_cons. simpl in *.
    apply andb_true_iff in Hw as [Ha Hw]. rewrite Ha. simpl. auto.
Qed.

Lemma append_snoc acc c w :
  (acc +:+ String c "") +:+ w = acc +:+ String c w.
Proof.
  induction acc as [|a acc IH]; [reflexivity|].
  rewrite !append_cons. now f_equal.
Qed.

Lemma append_empty_r w : w +:+ "" = w.
Proof.
  induction w as [|a w IH]; [reflexivity|].
  rewrite append_cons. now f_equal.
Qed.

Lemma split_from_words s :
  forall word, no_space word = true ->
  Forall is_word (split_from word s).
Proof.
  induction s as [|c rest IH]; intros word Hword; simpl.
  - destruct word; constructor; [split; [discriminate | assumption] | constructor].
  - destruct (isspace c) eqn:Hc.
    + destruct word.
      * apply IH. reflexivity.
      * constructor; [split; [discriminate | assumption] | now apply IH].
    + apply IH. now apply no_space_snoc.
Qed.

Lemma split_from_word w :
  forall acc rest, no_space w = true ->
  split_from acc (w +:+ rest) = split_from (acc +:+ w) rest.
Proof.
  induction w as [|c w IH]; intros acc rest Hw.
  - now rewrite append_nil, append_empty_r.
  - rewrite append_cons. simpl. simpl in Hw. apply andb_true_iff in Hw as [Hc Hw].
    apply negb_true_iff in Hc. rewrite Hc.
    rewrite IH by assumption. now rewrite append_snoc.
Qed.

Lemma split_join ws :
  Forall is_word ws -> split (join " " ws) = ws.
Proof.
  unfold split, join.
  induction 1 as [|w ws [Hne Hw] Hws IH]; [reflexivity|].
  destruct ws as [|w2 ws'].
  - simpl. rewrite <- (append_empty_r w) at 1.
    rewrite split_from_word by assumption. simpl.
    destruct w; [contradiction | reflexivity].
  - change (String.concat " " (w :: w2 :: ws'))
      with (w +:+ String " " (String.concat " " (w2 :: ws'))).
    rewrite split_from_word by assumption.
    change ("" +:+ w) with w.
    cbn [split_from]. change (isspace " ") with true. cbv iota.
    rewrite IH. destruct w; [contradiction | reflexivity].
Qed.

End Normalizer.

(** C9.  The text normalizer is idempotent: cleaning a cleaned text gives
    the same text, for every input (absent, empty or not). *)
Theorem clean_text_idempotent (x : option string) :
  Text.clean_text (Some (Text.clean_text x)) = Text.clean_text x.
Proof.
  destruct x as [t|]; [|reflexivity].
  destruct t as [|c t]; [reflexivity|].
  change (Text.clean_text (Some (String c t)))
    with (Text.join " " (Text.split (String c t))).
  set (ws := Text.split (String c t)).
  assert (Hws : Forall is_word ws) by (apply split_from_words; reflexivity).
  unfold Text.clean_text.
  destruct (Text.join " " ws) eqn:Hj; [reflexivity|].
  rewrite <- Hj. now rewrite split_join.
Qed.

Section Fetcher.
Variable requests_get : nat -> string -> response.

Abbreviation failure_trace := (failure_trace requests_get).

Lemma attempts_all_fail url sleep_time todo :
  forall attempt s,
  (forall k, (k < todo)%nat -> failed (requests_get (requests s + k) url) = true) ->
  attempts requests_get url sleep_time attempt todo s
  = (None, with_requests (requests s + todo) s,
     failure_trace url sleep_time attempt (requests s) todo).
Proof.
  induction todo as [|todo IH]; intros attempt s Hfail.
  - cbn. unfold ret, with_requests. destruct s; cbn. now rewrite Nat.add_0_r.
  - cbn [attempts failure_trace].
    pose proof (Hfail 0%nat ltac:(lia)) as H0. rewrite Nat.add_0_r in H0.
    unfold bind at 1. cbn [sleep emit].
    unfold bind at 1. unfold http_get at 1.
    destruct (requests_get (requests s) url) as [body|e] eqn:Hr; [discriminate|].
    unfold bind at 1. cbn [logging emit].
    unfold bind at 1. cbn [sleep emit].
    rewrite IH.
    + cbn. unfold with_requests. cbn. do 2 f_equal. f_equal. lia.
    + intros k Hk. cbn. rewrite <- Nat.add_succ_r. apply Hfail. lia.
Qed.

Lemma gets_of_app url e1 e2 :
  gets_of url (e1 ++ e2) = (gets_of url e1 + gets_of url e2)%nat.
Proof. unfold gets_of. now rewrite List.filter_app, length_app. Qed.

Lemma sleeps_app e1 e2 : sleeps (e1 ++ e2) = sleeps e1 ++ sleeps e2.
Proof. unfold sleeps. now rewrite flat_map_app. Qed.

Lemma gets_of_failure_trace url sleep_time todo :
  forall attempt n, gets_of url (failure_trace url sleep_time attempt n todo) = todo.
Proof.
  induction todo as [|todo IH]; intros attempt n; [reflexivity|].
  cbn [failure_trace]. rewrite gets_of_app, IH.
  unfold gets_of. cbn. now rewrite String.eqb_refl.
Qed.

Lemma sleeps_failure_trace url sleep_time todo :
  forall attempt n,
  sleeps (failure_trace url sleep_time attempt n todo)
  = concat (repeat [sleep_time; (sleep_time * 2)%Q] todo).
Proof.
  induction todo as [|todo IH]; intros attempt n; [reflexivity|].
  cbn [failure_trace]. rewrite sleeps_app, IH. reflexivity.
Qed.

Lemma fetch_content_all_fail url retries sleep_time s :
  (forall k, (k < Z.to_nat retries)%nat ->
             failed (requests_get (requests s + k) url) = true) ->
  fetch_content_with requests_get url retries sleep_time s
  = (None, with_requests (requests s + Z.to_nat retries) s,
     failure_trace url sleep_time 0 (requests s) (Z.to_nat retries)
     ++ [Log ERROR ("Failed to fetch " +:+ url +:+ " after " +:+ pretty retries
                    +:+ " attempts.")]).
Proof.
  intros Hfail. unfold fetch_content_with, bind.
  rewrite attempts_all_fail by assumption. reflexivity.
Qed.

(** C5.  When every attempt for a URL fails, the fetcher issues exactly
    [retries] requests for it and returns [None]; the computation is a
    total function, so nothing is raised. *)
Theorem fetch_content_retry_bound url retries sleep_time s :
  (0 <= retries)%Z ->
  (0 <= sleep_time)%Q ->
  (forall k, (k < Z.to_nat retries)%nat ->
             failed (requests_get (requests s + k) url) = true) ->
  value (fetch_content_with requests_get url retries sleep_time s) = None /\
  Z.of_nat (gets_of url (events (fetch_content_with requests_get url retries
                                                   sleep_time s))) = retries /\
  Z.of_nat (requests (final (fetch_content_with requests_get url retries
                                                sleep_time s)))
  = (Z.of_nat (requests s) + retries)%Z.
Proof.
  intros Hpos _ Hfail. rewrite fetch_content_all_fail by assumption.
  unfold value, events, final. cbn [fst snd].
  split; [reflexivity|]. split.
  - rewrite gets_of_app, gets_of_failure_trace. cbn. lia.
  - cbn. lia.
Qed.


End Fetcher.

(** ** The urgency table locator *)

Lemma find_target_table_find tables :
  find_target_table tables = List.find has_marker tables.
Proof.
  induction tables as [|t rest IH]; [reflexivity|].
  cbn [find_target_table List.find]. fold (has_marker t).
  now destruct (has_marker t).
Qed.

Lemma row_step_record urgencies row :
  row_step urgencies row
  = urgencies ++
    (if (5 <=? length (Soup.find_all "td" row))%nat
     then [record_of_cells (Soup.find_all "td" row)] else []).
Proof.
  unfold row_step, record_of_cells.
  destruct (Nat.ltb_spec (length (Soup.find_all "td" row)) 5) as [Hlt|Hge].
  - destruct (Nat.leb_spec 5 (length (Soup.find_all "td" row))); [lia|].
    now rewrite app_nil_r.
  - destruct (Nat.leb_spec 5 (length (Soup.find_all "td" row))); [|lia].
    reflexivity.
Qed.

Lemma fold_row_step rows :
  forall urgencies,
  fold_left row_step rows urgencies = urgencies ++ records_of_rows rows.
Proof.
  unfold records_of_rows.
  induction rows as [|row rows IH]; intros urgencies.
  - cbn. now rewrite app_nil_r.
  - cbn [fold_left List.filter]. rewrite IH, row_step_record.
    destruct (5 <=? length (Soup.find_all "td" row))%nat.
    + cbn [map]. now rewrite <- app_assoc.
    + now rewrite app_nil_r.
Qed.

(** C8.  The table part of [fetch_urgencias] is the locator of the spec:
    first marked table in document order, header row dropped, one record
    per later row with at least five cells, rows with fewer dropped; and
    when no table is marked the result is the empty list. *)
Theorem urgencies_of_page_locates (soup : node) :
  urgencies_of_page soup = locate_urgencies soup /\
  (List.forallb (fun t => negb (has_marker t)) (Soup.find_all "table" soup)
   = true -> urgencies_of_page soup = []).
Proof.
  assert (H : urgencies_of_page soup = locate_urgencies soup).
  { unfold urgencies_of_page, locate_urgencies.
    rewrite find_target_table_find.
    destruct (List.find has_marker (Soup.find_all "table" soup)); [|reflexivity].
    rewrite fold_row_step. cbn [app].
    now destruct (Soup.find_all "tr" n). }
  split; [exact H|].
  intros Hnone. rewrite H. unfold locate_urgencies.
  destruct (List.find has_marker (Soup.find_all "table" soup)) eqn:Hf; [|reflexivity].
  apply List.find_some in Hf as [Hin Hm].
  rewrite forallb_forall in Hnone. specialize (Hnone _ Hin).
  rewrite Hm in Hnone. discriminate.
Qed.

(** C10.  A row with exactly five cells is kept: its record takes the first
    five fields from the cells in order and has an empty
    [urgencia_mensaje_ret]; a row is skipped exactly when it has fewer
    than five cells. *)
Theorem five_cell_row_kept urgencies row c0 c1 c2 c3 c4 :
  Soup.find_all "td" row = [c0; c1; c2; c3; c4] ->
  row_step urgencies row
  = urgencies ++
    [ {| urgencia_fecha_inicio := Text.clean_text (Some (Soup.get_text c0));
         urgencia_fecha_termino := Text.clean_text (Some (Soup.get_text c1));
         urgencia_tipo := Text.clean_text (Some (Soup.get_text c2));
         urgencia_oficio := Text.clean_text (Some (Soup.get_text c3));
         urgencia_mensaje_ing := Text.clean_text (Some (Soup.get_text c4));
         urgencia_mensaje_ret := "" |} ] /\
  (forall row',
     row_step urgencies row' = urgencies
     <-> (length (Soup.find_all "td" row') < 5)%nat).
Proof.
  intros Hcols. split.
  - unfold row_step. rewrite Hcols. reflexivity.
  - intros row'. rewrite row_step_record.
    destruct (Nat.leb_spec 5 (length (Soup.find_all "td" row'))) as [Hge|Hlt].
    + split; [|lia]. intros Heq.
      apply (f_equal (@length urgency)) in Heq.
      rewrite length_app in Heq. cbn in Heq. lia.
    + rewrite app_nil_r. split; [intros _; lia | reflexivity].
Qed.

(** ** The resolution stages *)

Lemma truthy_true s : Text.truthy s = true <-> s <> "".
Proof.
  unfold Text.truthy. rewrite negb_true_iff. split.
  - intros H ->. discriminate.
  - intros H. destruct (String.eqb_spec s ""); congruence.
Qed.

Lemma truthy_false s : Text.truthy s = false <-> s = "".
Proof.
  unfold Text.truthy. rewrite negb_false_iff. apply String.eqb_eq.
Qed.

Lemma warnings_app e1 e2 : warnings (e1 ++ e2) = (warnings e1 + warnings e2)%nat.
Proof. unfold warnings. now rewrite List.filter_app, length_app. Qed.

Lemma failed_gets_app e1 e2 :
  failed_gets (e1 ++ e2) = (failed_gets e1 + failed_gets e2)%nat.
Proof. unfold failed_gets. now rewrite List.filter_app, length_app. Qed.

Lemma fetch_trace_nil url : fetch_trace url [].
Proof. split; [constructor | reflexivity]. Qed.

Lemma fetch_trace_app url e1 e2 :
  fetch_trace url e1 -> fetch_trace url e2 -> fetch_trace url (e1 ++ e2).
Proof.
  intros [F1 W1] [F2 W2]. split.
  - apply Forall_app. now split.
  - rewrite warnings_app, failed_gets_app. lia.
Qed.

Lemma fetch_trace_error url msg : fetch_trace url [Log ERROR msg].
Proof. split; [repeat constructor | reflexivity]. Qed.

Lemma gets_of_other url url' evs :
  Forall (own url) evs -> url' <> url -> gets_of url' evs = 0%nat.
Proof.
  intros HF Hne. unfold gets_of.
  induction HF as [|e evs He _ IH]; [reflexivity|].
  cbn [List.filter]. destruct e; cbn in *; try exact IH.
  destruct (String.eqb_spec url0 url'); [congruence | exact IH].
Qed.

Lemma same_caches_with_requests n s : same_caches s (with_requests n s).
Proof. repeat split. Qed.

Section Stages.
Variable requests_get : nat -> string -> response.
Variable ET_fromstring : string -> string + option element.
Variable BeautifulSoup : string -> string + node.
Variable query_prmID : string -> string.

Abbreviation fetch_content := (fetch_content requests_get).
Abbreviation fetch_boletin_for_vote :=
  (fetch_boletin_for_vote requests_get ET_fromstring).
Abbreviation fetch_proyecto_id_from_tramitacion :=
  (fetch_proyecto_id_from_tramitacion requests_get BeautifulSoup query_prmID).
Abbreviation fetch_urgencias := (fetch_urgencias requests_get BeautifulSoup).
Abbreviation process_vote :=
  (process_vote requests_get ET_fromstring BeautifulSoup query_prmID).
Abbreviation for_votes :=
  (for_votes requests_get ET_fromstring BeautifulSoup query_prmID).
Abbreviation page_of := (page_of requests_get BeautifulSoup).

Lemma attempts_spec url sleep_time todo :
  forall attempt s,
  exists c n evs,
    attempts requests_get url sleep_time attempt todo s
    = (c, with_requests n s, evs)
    /\ fetch_trace url evs
    /\ ((0 < todo)%nat -> (1 <= gets_of url evs)%nat).
Proof.
  induction todo as [|todo IH]; intros attempt s.
  - exists None, (requests s), []. split; [now destruct s|].
    split; [apply fetch_trace_nil | lia].
  - cbn [attempts]. unfold bind, sleep, logging, emit, http_get.
    destruct (requests_get (requests s) url) as [body|e] eqn:Hr.
    + exists (Some body), (S (requests s)). eexists. split; [reflexivity|].
      split; [split; [repeat constructor | reflexivity]|].
      intros _. unfold gets_of. cbn. rewrite String.eqb_refl. cbn. lia.
    + match goal with
      | |- context [attempts _ _ _ ?a _ ?s'] =>
          destruct (IH a s') as (c & n & evs & Heq & Ht & _); rewrite Heq
      end.
      exists c, n. eexists. split; [reflexivity|]. split.
      * apply (fetch_trace_app url [_; _; _; _]); [|exact Ht].
        split; [repeat constructor | reflexivity].
      * intros _. unfold gets_of. cbn. rewrite String.eqb_refl. cbn. lia.
Qed.

Ltac stage_done :=
  split; [unfold ret, bind, update; cbn; rewrite ?app_nil_r; reflexivity
         | now split].

Lemma fetch_content_spec url s :
  exists c n evs,
    fetch_content url s = (c, with_requests n s, evs)
    /\ fetch_trace url evs /\ (1 <= gets_of url evs)%nat.
Proof.
  unfold fetch_content, fetch_content_with, bind.
  destruct (attempts_spec url default_sleep_time (Z.to_nat default_retries) 0 s)
    as (c & n & evs & Heq & Ht & Hg).
  rewrite Heq. specialize (Hg ltac:(vm_compute; lia)).
  destruct c as [body|].
  - exists (Some body), n, (evs ++ []). split; [reflexivity|].
    now rewrite app_nil_r.
  - exists None, n. eexists. split; [reflexivity|]. split.
    + apply fetch_trace_app; [exact Ht | apply fetch_trace_error].
    + rewrite gets_of_app. lia.
Qed.

(** What a call of [fetch_boletin_for_vote] does: a cache hit returns the
    cached value with no effect; a miss looks the record up and stores the
    bulletin when it is not empty. *)
Lemma fetch_boletin_for_vote_spec v s :
  (exists b, vote_to_boletin s !! v = Some b
             /\ fetch_boletin_for_vote v s = (b, s, []))
  \/ (vote_to_boletin s !! v = None /\
      exists b n evs,
        fetch_boletin_for_vote v s
        = (b,
           (if Text.truthy b
            then set_vote_to_boletin v b (with_requests n s)
            else with_requests n s),
           evs)
        /\ fetch_trace (vote_url v) evs
        /\ (1 <= gets_of (vote_url v) evs)%nat).
Proof.
  unfold fetch_boletin_for_vote, bind, read.
  destruct (vote_to_boletin s !! v) as [b|] eqn:Hc.
  { left. exists b. split; reflexivity. }
  right. split; [reflexivity|].
  destruct (fetch_content_spec (vote_url v) s) as (c & n & evs & Heq & Ht & Hg).
  rewrite Heq.
  destruct c as [body|].
  2:{ exists "", n, evs. stage_done. }
  destruct (Text.truthy body); cbn [negb].
  2:{ exists "", n, evs. stage_done. }
  unfold parse_xml.
  destruct (ET_fromstring _) as [e|[root|]].
  - exists "", n. eexists. split; [reflexivity|]. cbn [app].
    rewrite gets_of_app. split; [|lia].
    apply fetch_trace_app; [exact Ht|].
    apply (fetch_trace_app _ [_] []);
      [apply fetch_trace_error | apply fetch_trace_nil].
  - exists (boletin_of_record root), n, evs. split; [|now split].
    unfold bind, update, ret.
    destruct (Text.truthy (boletin_of_record root));
      cbn [app]; now rewrite ?app_nil_r.
  - exists "", n, evs. stage_done.
Qed.

Lemma fetch_proyecto_id_from_tramitacion_spec b s :
  (b = "" /\ fetch_proyecto_id_from_tramitacion b s = ("", s, []))
  \/ (b <> "" /\
      exists p, boletin_to_project_id s !! b = Some p
                /\ fetch_proyecto_id_from_tramitacion b s = (p, s, []))
  \/ (b <> "" /\ boletin_to_project_id s !! b = None /\
      exists p n evs,
        fetch_proyecto_id_from_tramitacion b s
        = (p,
           (if Text.truthy p
            then set_boletin_to_project_id b p (with_requests n s)
            else with_requests n s),
           evs)
        /\ fetch_trace (tramitacion_url b) evs
        /\ (1 <= gets_of (tramitacion_url b) evs)%nat).
Proof.
  unfold fetch_proyecto_id_from_tramitacion.
  destruct (Text.truthy b) eqn:Hb; cbn [negb].
  2:{ left. apply truthy_false in Hb. now split. }
  apply truthy_true in Hb. right. unfold bind, read.
  destruct (boletin_to_project_id s !! b) as [p|] eqn:Hc.
  { left. split; [exact Hb|]. exists p. now split. }
  right. split; [exact Hb|]. split; [reflexivity|].
  destruct (fetch_content_spec (tramitacion_url b) s)
    as (c & n & evs & Heq & Ht & Hg).
  rewrite Heq.
  destruct c as [body|].
  2:{ exists "", n, evs. stage_done. }
  destruct (Text.truthy body); cbn [negb].
  2:{ exists "", n, evs. stage_done. }
  unfold parse_html.
  destruct (BeautifulSoup body) as [e|soup].
  - exists "", n. eexists. split; [reflexivity|]. cbn [app].
    rewrite gets_of_app. split; [|lia].
    apply fetch_trace_app; [exact Ht|].
    apply (fetch_trace_app _ [_] []);
      [apply fetch_trace_error | apply fetch_trace_nil].
  - unfold bind, update, ret. cbn [app].
    destruct (Text.truthy (prmID_of_page query_prmID soup)) eqn:Hp.
    + exists (prmID_of_page query_prmID soup), n, evs.
      rewrite Hp, ?app_nil_r. now split.
    + exists "", n, evs. rewrite ?app_nil_r. now split.
Qed.

Lemma fetch_urgencias_spec p b s :
  (p = "" /\ fetch_urgencias p b s = ([], s, []))
  \/ (p <> "" /\
      exists l, project_urgencies s !! cache_key p b = Some l
                /\ fetch_urgencias p b s = (l, s, []))
  \/ (p <> "" /\ project_urgencies s !! cache_key p b = None /\
      exists n evs,
        fetch_trace (urgencias_url p b) evs
        /\ (1 <= gets_of (urgencias_url p b) evs)%nat
        /\ match page_of (urgencias_url p b) s with
           | None => fetch_urgencias p b s = ([], with_requests n s, evs)
           | Some soup =>
               fetch_urgencias p b s
               = (urgencies_of_page soup,
                  set_project_urgencies (cache_key p b)
                    (urgencies_of_page soup) (with_requests n s),
                  evs)
           end).
Proof.
  unfold fetch_urgencias, page_of.
  destruct (Text.truthy p) eqn:Hp; cbn [negb].
  2:{ left. apply truthy_false in Hp. now split. }
  apply truthy_true in Hp. right. unfold bind, read.
  destruct (project_urgencies s !! cache_key p b) as [l|] eqn:Hc.
  { left. split; [exact Hp|]. exists l. now split. }
  right. split; [exact Hp|]. split; [reflexivity|].
  destruct (fetch_content_spec (urgencias_url p b) s)
    as (c & n & evs & Heq & Ht & Hg).
  rewrite Heq. unfold value. cbn [fst].
  destruct c as [body|].
  2:{ exists n, evs. unfold ret. cbn [app]. rewrite ?app_nil_r. now split. }
  destruct (Text.truthy body); cbn [negb].
  2:{ exists n, evs. unfold ret. cbn [app]. rewrite ?app_nil_r. now split. }
  unfold parse_html.
  destruct (BeautifulSoup body) as [e|soup].
  - exists n. eexists. split; [|split; [|reflexivity]]; cbn [app].
    + apply fetch_trace_app; [exact Ht|].
      apply (fetch_trace_app _ [_] []);
        [apply fetch_trace_error | apply fetch_trace_nil].
    + rewrite gets_of_app. lia.
  - exists n, evs. unfold bind, update, ret. cbn [app].
    rewrite ?app_nil_r. now split.
Qed.

(** *** Stage traces and cache invariants *)

Lemma fetch_boletin_for_vote_trace v s :
  fetch_trace (vote_url v) (events (fetch_boletin_for_vote v s)).
Proof.
  destruct (fetch_boletin_for_vote_spec v s)
    as [(b & _ & ->) | (_ & b & n & evs & -> & Ht & _)];
    [apply fetch_trace_nil | exact Ht].
Qed.

Lemma fetch_proyecto_id_from_tramitacion_trace b s :
  fetch_trace (tramitacion_url b)
              (events (fetch_proyecto_id_from_tramitacion b s)).
Proof.
  destruct (fetch_proyecto_id_from_tramitacion_spec b s)
    as [(_ & ->) | [(_ & p & _ & ->) | (_ & _ & p & n & evs & -> & Ht & _)]];
    [apply fetch_trace_nil | apply fetch_trace_nil | exact Ht].
Qed.

Lemma fetch_urgencias_trace p b s :
  fetch_trace (urgencias_url p b) (events (fetch_urgencias p b s)).
Proof.
  destruct (fetch_urgencias_spec p b s)
    as [(_ & ->) | [(_ & l & _ & ->) | (_ & _ & n & evs & Ht & _ & H)]];
    [apply fetch_trace_nil | apply fetch_trace_nil |].
  destruct (page_of _ s); rewrite H; exact Ht.
Qed.

Lemma fetch_boletin_for_vote_refetch v s :
  vote_to_boletin s !! v = None ->
  (1 <= gets_of (vote_url v) (events (fetch_boletin_for_vote v s)))%nat.
Proof.
  intros Hnone.
  destruct (fetch_boletin_for_vote_spec v s)
    as [(b & Hc & _) | (_ & b & n & evs & -> & _ & Hg)];
    [congruence | exact Hg].
Qed.

Lemma fetch_proyecto_id_from_tramitacion_refetch b s :
  b <> "" -> boletin_to_project_id s !! b = None ->
  (1 <= gets_of (tramitacion_url b)
          (events (fetch_proyecto_id_from_tramitacion b s)))%nat.
Proof.
  intros Hb Hnone.
  destruct (fetch_proyecto_id_from_tramitacion_spec b s)
    as [(He & _) | [(_ & p & Hc & _) | (_ & _ & p & n & evs & -> & _ & Hg)]];
    [congruence | congruence | exact Hg].
Qed.

Lemma fetch_urgencias_refetch p b s :
  p <> "" -> project_urgencies s !! cache_key p b = None ->
  (1 <= gets_of (urgencias_url p b) (events (fetch_urgencias p b s)))%nat.
Proof.
  intros Hp Hnone.
  destruct (fetch_urgencias_spec p b s)
    as [(He & _) | [(_ & l & Hc & _) | (_ & _ & n & evs & _ & Hg & H)]];
    [congruence | congruence |].
  destruct (page_of _ s); rewrite H; exact Hg.
Qed.

Lemma fetch_boletin_for_vote_cache_ok v s :
  cache_ok s -> cache_ok (final (fetch_boletin_for_vote v s)).
Proof.
  intros [Hv Hb].
  destruct (fetch_boletin_for_vote_spec v s)
    as [(b & _ & ->) | (_ & b & n & evs & -> & _)]; [now split|].
  unfold final. cbn [fst snd].
  destruct (Text.truthy b) eqn:Ht; [|now split].
  split; [|exact Hb]. cbn. apply map_Forall_insert_2; [|exact Hv].
  now apply truthy_true.
Qed.

Lemma fetch_proyecto_id_from_tramitacion_cache_ok b s :
  cache_ok s -> cache_ok (final (fetch_proyecto_id_from_tramitacion b s)).
Proof.
  intros [Hv Hb].
  destruct (fetch_proyecto_id_from_tramitacion_spec b s)
    as [(_ & ->) | [(_ & p & _ & ->) | (_ & _ & p & n & evs & -> & _)]];
    [now split | now split |].
  unfold final. cbn [fst snd].
  destruct (Text.truthy p) eqn:Ht; [|now split].
  split; [exact Hv|]. cbn. apply map_Forall_insert_2; [|exact Hb].
  now apply truthy_true.
Qed.

Lemma fetch_urgencias_cache_ok p b s :
  cache_ok s -> cache_ok (final (fetch_urgencias p b s)).
Proof.
  intros Hok.
  destruct (fetch_urgencias_spec p b s)
    as [(_ & ->) | [(_ & l & _ & ->) | (_ & _ & n & evs & _ & _ & H)]];
    [exact Hok | exact Hok |].
  destruct (page_of _ s); rewrite H; exact Hok.
Qed.

(** C3.  In every stage a lookup that ends with no value leaves the three
    caches as they were, and the next call with the same key goes to the
    network again; the caches only ever hold values that are not empty.
    For the urgency stage "no value" is the failure of the stage (page
    not fetched, empty, or not parsed). *)
Theorem no_value_is_not_cached s v b p :
  cache_ok s ->
  (value (fetch_boletin_for_vote v s) = "" ->
   same_caches s (final (fetch_boletin_for_vote v s)) /\
   (1 <= gets_of (vote_url v)
           (events (fetch_boletin_for_vote v
                      (final (fetch_boletin_for_vote v s)))))%nat) /\
  (value (fetch_proyecto_id_from_tramitacion b s) = "" ->
   same_caches s (final (fetch_proyecto_id_from_tramitacion b s)) /\
   (b <> "" ->
    (1 <= gets_of (tramitacion_url b)
            (events (fetch_proyecto_id_from_tramitacion b
                       (final (fetch_proyecto_id_from_tramitacion b s)))))%nat)) /\
  (p = "" ->
   value (fetch_urgencias p b s) = [] /\
   same_caches s (final (fetch_urgencias p b s))) /\
  (p <> "" ->
   project_urgencies s !! cache_key p b = None ->
   page_of (urgencias_url p b) s = None ->
   value (fetch_urgencias p b s) = [] /\
   same_caches s (final (fetch_urgencias p b s)) /\
   (1 <= gets_of (urgencias_url p b)
           (events (fetch_urgencias p b (final (fetch_urgencias p b s)))))%nat) /\
  cache_ok (final (fetch_boletin_for_vote v s)) /\
  cache_ok (final (fetch_proyecto_id_from_tramitacion b s)) /\
  cache_ok (final (fetch_urgencias p b s)).
Proof.
  intros Hok. pose proof Hok as [Hv Hb].
  split; [|split; [|split; [|split; [|split; [|split]]]]].
  - intros Hval.
    destruct (fetch_boletin_for_vote_spec v s)
      as [(c & Hc & Heq) | (Hc & c & n & evs & Heq & _)];
      rewrite Heq in Hval |- *; unfold value, final in *; cbn [fst snd] in *;
      subst c.
    + exfalso. exact (Hv _ _ Hc eq_refl).
    + change (Text.truthy "") with false. cbv iota.
      split; [apply same_caches_with_requests|].
      exact (fetch_boletin_for_vote_refetch v (with_requests n s) Hc).
  - intros Hval.
    destruct (fetch_proyecto_id_from_tramitacion_spec b s)
      as [(He & Heq) | [(_ & c & Hc & Heq) | (_ & Hc & c & n & evs & Heq & _)]];
      rewrite Heq in Hval |- *; unfold value, final in *; cbn [fst snd] in *;
      try subst c.
    + split; [now repeat split | intros Hne; contradiction].
    + exfalso. exact (Hb _ _ Hc eq_refl).
    + change (Text.truthy "") with false. cbv iota.
      split; [apply same_caches_with_requests|]. intros Hne.
      exact (fetch_proyecto_id_from_tramitacion_refetch
               b (with_requests n s) Hne Hc).
  - intros ->.
    destruct (fetch_urgencias_spec "" b s)
      as [(_ & ->) | [(Hn & _) | (Hn & _)]]; [|contradiction..].
    now repeat split.
  - intros Hne Hnone Hpage.
    destruct (fetch_urgencias_spec p b s)
      as [(He & _) | [(_ & l & Hc & _) | (_ & _ & n & evs & _ & _ & Heq)]];
      [contradiction | congruence |].
    rewrite Hpage in Heq. rewrite Heq. unfold value, final. cbn [fst snd].
    split; [reflexivity|]. split; [apply same_caches_with_requests|].
    exact (fetch_urgencias_refetch p b (with_requests n s) Hne Hnone).
  - now apply fetch_boletin_for_vote_cache_ok.
  - now apply fetch_proyecto_id_from_tramitacion_cache_ok.
  - now apply fetch_urgencias_cache_ok.
Qed.

(** *** The driver loop *)

Lemma fold_append_rows {A} (f : A -> output_row) (l : list A) :
  forall results,
  fold_left (fun results x => results ++ [f x]) l results
  = results ++ map f l.
Proof.
  induction l as [|x l IH]; intros results; cbn.
  - now rewrite app_nil_r.
  - now rewrite IH, <- app_assoc.
Qed.

Lemma process_vote_no_boletin v results s :
  value (fetch_boletin_for_vote v s) = "" ->
  process_vote v results s
  = (results, final (fetch_boletin_for_vote v s),
     events (fetch_boletin_for_vote v s)).
Proof.
  unfold process_vote, bind, value, final, events.
  destruct (fetch_boletin_for_vote v s) as [[b s1] e1]. cbn [fst snd].
  intros ->. cbn. now rewrite app_nil_r.
Qed.

Lemma process_vote_resolved v results s b p :
  value (fetch_boletin_for_vote v s) = b -> b <> "" ->
  value (fetch_proyecto_id_from_tramitacion b
           (final (fetch_boletin_for_vote v s))) = p -> p <> "" ->
  process_vote v results s
  = (results ++
     rows_for v b p
       (value (fetch_urgencias p b
                 (final (fetch_proyecto_id_from_tramitacion b
                           (final (fetch_boletin_for_vote v s)))))),
     final (fetch_urgencias p b
              (final (fetch_proyecto_id_from_tramitacion b
                        (final (fetch_boletin_for_vote v s))))),
     events (fetch_boletin_for_vote v s) ++
     events (fetch_proyecto_id_from_tramitacion b
               (final (fetch_boletin_for_vote v s))) ++
     events (fetch_urgencias p b
               (final (fetch_proyecto_id_from_tramitacion b
                         (final (fetch_boletin_for_vote v s)))))).
Proof.
  unfold process_vote, bind, value, final, events.
  destruct (fetch_boletin_for_vote v s) as [[b1 s1] e1]. cbn [fst snd].
  intros -> Hb.
  apply truthy_true in Hb. rewrite Hb. cbn [negb].
  destruct (fetch_proyecto_id_from_tramitacion b s1) as [[p1 s2] e2].
  cbn [fst snd]. intros -> Hp.
  apply truthy_true in Hp. rewrite Hp. cbn [negb].
  destruct (fetch_urgencias p b s2) as [[us s3] e3]. cbn [fst snd].
  destruct us as [|u us]; unfold ret, rows_for.
  - now rewrite app_nil_r.
  - now rewrite fold_append_rows, app_nil_r.
Qed.

(** C1.  For a seed whose chain resolves (bulletin and project id both
    not empty) the loop body appends one row per urgency record, or one
    row with six empty urgency fields when there is none: max(1, number of
    records) rows, never zero. *)
Theorem resolved_chain_row_count v results s b p :
  value (fetch_boletin_for_vote v s) = b -> b <> "" ->
  value (fetch_proyecto_id_from_tramitacion b
           (final (fetch_boletin_for_vote v s))) = p -> p <> "" ->
  let urgency_list :=
    value (fetch_urgencias p b
             (final (fetch_proyecto_id_from_tramitacion b
                       (final (fetch_boletin_for_vote v s))))) in
  exists rows,
    value (process_vote v results s) = results ++ rows /\
    length rows = Nat.max 1 (length urgency_list) /\
    (urgency_list <> [] -> rows = map (make_row v b p) urgency_list) /\
    (urgency_list = [] ->
     rows = [ {| vote_id := v; boletin := b; proyecto_id := p;
                 urg := {| urgencia_fecha_inicio := "";
                           urgencia_fecha_termino := "";
                           urgencia_tipo := "";
                           urgencia_oficio := "";
                           urgencia_mensaje_ing := "";
                           urgencia_mensaje_ret := "" |} |} ]).
Proof.
  intros Hb Hbne Hp Hpne urgency_list.
  rewrite (process_vote_resolved v results s b p Hb Hbne Hp Hpne).
  fold urgency_list. exists (rows_for v b p urgency_list).
  unfold value. cbn [fst].
  split; [reflexivity|].
  destruct urgency_list as [|u us]; cbn [rows_for].
  - split; [reflexivity|]. split; [congruence | reflexivity].
  - rewrite length_map. cbn [length].
    split; [lia|]. split; [reflexivity | congruence].
Qed.

Lemma for_votes_cons v rest results s :
  for_votes (v :: rest) results s
  = bind (process_vote v results) (fun r => for_votes rest r) s.
Proof. reflexivity. Qed.

(** *** URLs of the three endpoints *)

Lemma append_inj_l p a b : p +:+ a = p +:+ b -> a = b.
Proof.
  induction p as [|c p IH]; [trivial|].
  rewrite !append_cons. intros H. injection H as H. auto.
Qed.

Lemma tramitacion_url_inj b b' :
  tramitacion_url b = tramitacion_url b' -> b = b'.
Proof. apply append_inj_l. Qed.

Lemma vote_url_not_tramitacion v b : tramitacion_url b <> vote_url v.
Proof.
  intros H. apply (f_equal (String.prefix "https://w")) in H.
  vm_compute in H. discriminate.
Qed.

Lemma vote_url_not_urgencias v p b : urgencias_url p b <> vote_url v.
Proof.
  intros H. apply (f_equal (String.prefix "https://w")) in H.
  vm_compute in H. discriminate.
Qed.

Lemma tramitacion_url_not_urgencias b p b' :
  tramitacion_url b <> urgencias_url p b'.
Proof.
  intros H.
  apply (f_equal
           (String.prefix "https://www.camara.cl/legislacion/ProyectosDeLey/t"))
    in H.
  vm_compute in H. discriminate.
Qed.

(** C4.  When the structured-record stage returns an empty bulletin for a
    seed, the loop body adds no row and issues no request for any
    tramitacion page or any urgency listing. *)
Theorem empty_bulletin_short_circuit v results s :
  value (fetch_boletin_for_vote v s) = "" ->
  value (process_vote v results s) = results /\
  (forall b, gets_of (tramitacion_url b) (events (process_vote v results s))
             = 0%nat) /\
  (forall p b, gets_of (urgencias_url p b) (events (process_vote v results s))
               = 0%nat).
Proof.
  intros Hempty. rewrite (process_vote_no_boletin v results s Hempty).
  unfold value, events. cbn [fst snd].
  destruct (fetch_boletin_for_vote_trace v s) as [Hown _].
  split; [reflexivity|]. split.
  - intros b. apply (gets_of_other (vote_url v)); [exact Hown|].
    apply vote_url_not_tramitacion.
  - intros p b. apply (gets_of_other (vote_url v)); [exact Hown|].
    apply vote_url_not_urgencias.
Qed.


(** *** Memoization of the project id *)

Lemma keeps_ret b pid {A} (a : A) : keeps b pid (ret a).
Proof. intros s H. now split. Qed.

Lemma keeps_logging b pid lv msg : keeps b pid (logging lv msg).
Proof. intros s H. now split. Qed.

Lemma keeps_bind b pid {A B} (m : M A) (f : A -> M B) :
  keeps b pid m -> (forall a, keeps b pid (f a)) -> keeps b pid (bind m f).
Proof.
  intros Hm Hf s H. unfold bind.
  specialize (Hm s H). destruct (m s) as [[a s1] e1].
  unfold final, events in Hm. cbn [fst snd] in Hm. destruct Hm as [H1 G1].
  specialize (Hf a s1 H1). destruct (f a s1) as [[c s2] e2].
  unfold final, events in *. cbn [fst snd] in *. destruct Hf as [H2 G2].
  split; [exact H2|]. rewrite gets_of_app. lia.
Qed.

Lemma fetch_boletin_for_vote_keeps b pid v :
  keeps b pid (fetch_boletin_for_vote v).
Proof.
  intros s H. split.
  - destruct (fetch_boletin_for_vote_spec v s)
      as [(c & _ & ->) | (_ & c & n & evs & -> & _)]; [exact H|].
    unfold final. cbn [fst snd]. now destruct (Text.truthy c).
  - apply (gets_of_other (vote_url v));
      [apply fetch_boletin_for_vote_trace | apply vote_url_not_tramitacion].
Qed.

Lemma fetch_proyecto_id_from_tramitacion_keeps b pid b' :
  keeps b pid (fetch_proyecto_id_from_tramitacion b').
Proof.
  intros s H.
  destruct (fetch_proyecto_id_from_tramitacion_spec b' s)
    as [(_ & ->) | [(_ & c & _ & ->) | (_ & Hc & c & n & evs & -> & Ht & _)]];
    [now split | now split |].
  assert (Hne : b' <> b) by (intros ->; unfold known in H; congruence).
  unfold final, events. cbn [fst snd]. split.
  - destruct (Text.truthy c); [|exact H].
    unfold known. cbn. now rewrite lookup_insert_ne.
  - apply (gets_of_other (tramitacion_url b')); [apply Ht|].
    intros Heq. apply tramitacion_url_inj in Heq. congruence.
Qed.

Lemma fetch_urgencias_keeps b pid p b' : keeps b pid (fetch_urgencias p b').
Proof.
  intros s H. split.
  - destruct (fetch_urgencias_spec p b' s)
      as [(_ & ->) | [(_ & l & _ & ->) | (_ & _ & n & evs & _ & _ & Heq)]];
      [exact H | exact H |].
    destruct (page_of _ s); rewrite Heq; exact H.
  - apply (gets_of_other (urgencias_url p b'));
      [apply fetch_urgencias_trace | apply tramitacion_url_not_urgencias].
Qed.

Lemma process_vote_keeps b pid v results : keeps b pid (process_vote v results).
Proof.
  unfold process_vote.
  apply keeps_bind; [apply fetch_boletin_for_vote_keeps|].
  intros bol. destruct (negb (Text.truthy bol)); [apply keeps_ret|].
  apply keeps_bind; [apply fetch_proyecto_id_from_tramitacion_keeps|].
  intros pr. destruct (negb (Text.truthy pr)).
  - apply keeps_bind; [apply keeps_logging | intros _; apply keeps_ret].
  - apply keeps_bind; [apply fetch_urgencias_keeps|].
    intros us. destruct us; apply keeps_ret.
Qed.

Lemma for_votes_keeps b pid vote_ids :
  forall results, keeps b pid (for_votes vote_ids results).
Proof.
  induction vote_ids as [|v rest IH]; intros results.
  - apply keeps_ret.
  - intros s H. rewrite for_votes_cons. revert s H.
    apply keeps_bind; [apply process_vote_keeps | exact IH].
Qed.

Lemma fetch_proyecto_id_from_tramitacion_learns b p s :
  value (fetch_proyecto_id_from_tramitacion b s) = p -> p <> "" ->
  known b p (final (fetch_proyecto_id_from_tramitacion b s)).
Proof.
  intros Hval Hne.
  destruct (fetch_proyecto_id_from_tramitacion_spec b s)
    as [(_ & Heq) | [(_ & c & Hc & Heq) | (_ & _ & c & n & evs & Heq & _)]];
    rewrite Heq in Hval |- *; unfold value, final in *; cbn [fst snd] in *;
    subst p.
  - contradiction.
  - exact Hc.
  - apply truthy_true in Hne. rewrite Hne. unfold known. cbn.
    apply lookup_insert_eq.
Qed.

(** C2, as the code has it.  Once the tramitacion page of a bulletin has
    given a project id for a seed, the rest of the run issues no request
    for that bulletin's tramitacion page, whatever seeds follow. *)
Theorem tramitacion_not_refetched_once_resolved v rest results s b p :
  value (fetch_boletin_for_vote v s) = b ->
  value (fetch_proyecto_id_from_tramitacion b
           (final (fetch_boletin_for_vote v s))) = p ->
  p <> "" ->
  gets_of (tramitacion_url b)
    (events (for_votes rest (value (process_vote v results s))
                       (final (process_vote v results s)))) = 0%nat.
Proof.
  intros Hb Hp Hpne.
  assert (Hbne : b <> "").
  { intros ->. apply Hpne. rewrite <- Hp.
    now destruct (fetch_proyecto_id_from_tramitacion_spec
                    "" (final (fetch_boletin_for_vote v s)))
      as [(_ & ->) | [(Hn & _) | (Hn & _)]]. }
  apply (for_votes_keeps b p).
  rewrite (process_vote_resolved v results s b p Hb Hbne Hp Hpne).
  unfold final at 1. cbn [fst snd].
  apply fetch_urgencias_keeps.
  now apply fetch_proyecto_id_from_tramitacion_learns.
Qed.

End Stages.

(** ** Concrete runs *)

Lemma cache_ok_initial : cache_ok initial_state.
Proof. split; apply map_Forall_empty. Qed.

Lemma fetch_content_retry_bound_witness :
  value (fetch_content_with always_failing "http://x" 3 (1 # 2) initial_state)
    = None /\
  Z.of_nat (gets_of "http://x"
              (events (fetch_content_with always_failing "http://x" 3 (1 # 2)
                                          initial_state))) = 3%Z /\
  Z.of_nat (requests (final (fetch_content_with always_failing "http://x" 3
                                                (1 # 2) initial_state)))
  = (Z.of_nat (requests initial_state) + 3)%Z.
Proof.
  apply (fetch_content_retry_bound always_failing "http://x" 3 (1 # 2)
                                   initial_state).
  - lia.
  - discriminate.
  - intros k _. reflexivity.
Defined.



Lemma five_cell_row_kept_witness :
  row_step [] five_cell_row
  = [ {| urgencia_fecha_inicio := "01/03/2023";
         urgencia_fecha_termino := "16/03/2023";
         urgencia_tipo := "Suma";
         urgencia_oficio := "123-371";
         urgencia_mensaje_ing := "001-371";
         urgencia_mensaje_ret := "" |} ].
Proof.
  apply (proj1 (five_cell_row_kept [] five_cell_row
                  (td "01/03/2023") (td "16/03/2023") (td "Suma")
                  (td "123-371") (td " 001-371 ") eq_refl)).
Defined.

Lemma urgencies_of_page_locates_witness :
  urgencies_of_page page_without_urgency_table = [].
Proof.
  apply (proj2 (urgencies_of_page_locates page_without_urgency_table)).
  vm_compute. reflexivity.
Defined.

Example scenario_rows :
  value (for_votes serve_scenario parse_record_9876 parse_scenario_page
                   scenario_query ["12345"] [] initial_state)
  = [ make_row "12345" "9876-06" "555"
        {| urgencia_fecha_inicio := "01/03/2023";
           urgencia_fecha_termino := "16/03/2023";
           urgencia_tipo := "Suma";
           urgencia_oficio := "123-371";
           urgencia_mensaje_ing := "001-371";
           urgencia_mensaje_ret := "" |};
      make_row "12345" "9876-06" "555"
        {| urgencia_fecha_inicio := "17/03/2023";
           urgencia_fecha_termino := "01/04/2023";
           urgencia_tipo := "Discusion inmediata";
           urgencia_oficio := "130-371";
           urgencia_mensaje_ing := "010-371";
           urgencia_mensaje_ret := "015-371" |} ].
Proof. vm_compute. reflexivity. Qed.

Lemma resolved_chain_row_count_witness :
  exists rows,
    value (process_vote serve_scenario parse_record_9876 parse_scenario_page
                        scenario_query "12345" [] initial_state)
    = [] ++ rows /\
    length rows = 2%nat /\
    rows <> [].
Proof.
  destruct (resolved_chain_row_count
              serve_scenario parse_record_9876 parse_scenario_page
              scenario_query "12345" [] initial_state "9876-06" "555")
    as (rows & Hv & Hl & Hrows & _).
  - vm_compute. reflexivity.
  - discriminate.
  - vm_compute. reflexivity.
  - discriminate.
  - exists rows. split; [exact Hv|]. split.
    + rewrite Hl. vm_compute. reflexivity.
    + intros ->. vm_compute in Hl. discriminate.
Defined.

(** C2, as stated, fails: seeds 1 and 2 both resolve to bulletin 9876-06,
    the tramitacion page has no urgency link, and the page is requested
    once for each seed. *)
Lemma tramitacion_fetched_twice :
  value (fetch_boletin_for_vote serve_without_link parse_record_9876
                                "1" initial_state) = "9876-06" /\
  value (fetch_boletin_for_vote serve_without_link parse_record_9876
                                "2" initial_state) = "9876-06" /\
  gets_of (tramitacion_url "9876-06")
    (events (for_votes serve_without_link parse_record_9876
                       parse_page_without_link no_query
                       ["1"; "2"] [] initial_state)) = 2%nat.
Proof. repeat split; vm_compute; reflexivity. Qed.

Lemma tramitacion_not_refetched_once_resolved_witness :
  gets_of (tramitacion_url "9876-06")
    (events
       (for_votes serve_scenario parse_record_9876 parse_scenario_page
          scenario_query ["12346"]
          (value (process_vote serve_scenario parse_record_9876
                    parse_scenario_page scenario_query "12345" []
                    initial_state))
          (final (process_vote serve_scenario parse_record_9876
                    parse_scenario_page scenario_query "12345" []
                    initial_state)))) = 0%nat.
Proof.
  apply (tramitacion_not_refetched_once_resolved
           serve_scenario parse_record_9876 parse_scenario_page scenario_query
           "12345" ["12346"] [] initial_state "9876-06" "555").
  - vm_compute. reflexivity.
  - vm_compute. reflexivity.
  - discriminate.
Defined.

Lemma no_value_is_not_cached_witness :
  (same_caches initial_state
     (final (fetch_boletin_for_vote always_failing parse_record_9876
                                    "999" initial_state)) /\
   (1 <= gets_of (vote_url "999")
           (events
              (fetch_boletin_for_vote always_failing parse_record_9876 "999"
                 (final (fetch_boletin_for_vote always_failing
                           parse_record_9876 "999" initial_state)))))%nat) /\
  (same_caches initial_state
     (final (fetch_proyecto_id_from_tramitacion
               always_failing no_html no_query "9876-06" initial_state)) /\
   (1 <= gets_of (tramitacion_url "9876-06")
           (events
              (fetch_proyecto_id_from_tramitacion
                 always_failing no_html no_query "9876-06"
                 (final (fetch_proyecto_id_from_tramitacion
                           always_failing no_html no_query "9876-06"
                           initial_state)))))%nat) /\
  value (fetch_urgencias always_failing no_html "555" "9876-06" initial_state)
  = [].
Proof.
  destruct (no_value_is_not_cached
              always_failing parse_record_9876 no_html no_query
              initial_state "999" "9876-06" "555" cache_ok_initial)
    as (H1 & H2 & _ & H3 & _).
  split; [apply H1; vm_compute; reflexivity|].
  split.
  - destruct H2 as [Hsame Hget]; [vm_compute; reflexivity|].
    split; [exact Hsame | apply Hget; discriminate].
  - apply H3; [discriminate | reflexivity | vm_compute; reflexivity].
Defined.

Lemma empty_bulletin_short_circuit_witness :
  value (process_vote serve_record_without_boletin
           parse_record_without_boletin no_html no_query
           "999" [] initial_state) = [] /\
  (forall b,
     gets_of (tramitacion_url b)
       (events (process_vote serve_record_without_boletin
                  parse_record_without_boletin no_html no_query
                  "999" [] initial_state)) = 0%nat) /\
  (forall p b,
     gets_of (urgencias_url p b)
       (events (process_vote serve_record_without_boletin
                  parse_record_without_boletin no_html no_query
                  "999" [] initial_state)) = 0%nat).
Proof.
  apply (empty_bulletin_short_circuit
           serve_record_without_boletin parse_record_without_boletin
           no_html no_query "999" [] initial_state).
  vm_compute. reflexivity.
Defined.



(** * Further properties *)

(** ** The text normalizer, continued *)

Lemma join_cons w ws :
  ws <> [] -> Text.join " " (w :: ws) = w +:+ String " " (Text.join " " ws).
Proof. destruct ws; [congruence | reflexivity]. Qed.

Lemma normalized_from_word w :
  forall p rest, w <> "" -> no_space w = true ->
  normalized_from p (w +:+ rest) = normalized_from false rest.
Proof.
  induction w as [|c w IH]; intros p rest Hne Hw; [congruence|].
  rewrite append_cons. cbn [normalized_from]. cbn [no_space] in Hw.
  apply andb_true_iff in Hw as [Hc Hw]. apply negb_true_iff in Hc.
  rewrite Hc. destruct w as [|c' w'].
  - now rewrite append_nil.
  - apply IH; [discriminate | exact Hw].
Qed.

Lemma normalized_join ws :
  Forall is_word ws -> ws <> [] ->
  normalized_from true (Text.join " " ws) = true.
Proof.
  induction 1 as [|w ws [Hne Hw] Hws IH]; [congruence|]. intros _.
  destruct ws as [|w2 ws'].
  - cbn [Text.join String.concat].
    rewrite <- (append_empty_r w), normalized_from_word by assumption.
    reflexivity.
  - rewrite join_cons by discriminate.
    rewrite normalized_from_word by assumption.
    cbn [normalized_from]. change (Text.isspace " ") with true. cbv iota.
    rewrite IH by discriminate. reflexivity.
Qed.

Lemma clean_text_join t :
  t <> "" -> Text.clean_text (Some t) = Text.join " " (Text.split t).
Proof. destruct t; [congruence | reflexivity]. Qed.

Lemma clean_text_normalized x : normalized (Text.clean_text x) = true.
Proof.
  destruct x as [t|]; [|reflexivity].
  destruct t as [|c t]; [reflexivity|].
  rewrite clean_text_join by discriminate.
  assert (Hws : Forall is_word (Text.split (String c t)))
    by (apply split_from_words; reflexivity).
  destruct (Text.split (String c t)) as [|w ws] eqn:Hs; [reflexivity|].
  unfold normalized.
  rewrite (normalized_join (w :: ws)) by (assumption || discriminate).
  now destruct (Text.join " " (w :: ws)).
Qed.

Lemma is_empty_snoc w c : is_empty (w +:+ String c "") = false.
Proof. now destruct w. Qed.

Lemma join_split_normalized s :
  forall word,
  normalized_from (is_empty word) s = true ->
  Text.join " " (Text.split_from word s) = word +:+ s.
Proof.
  induction s as [|c rest IH]; intros word Hn.
  - cbn in Hn. destruct word; [discriminate|].
    cbn. now rewrite append_empty_r.
  - cbn [normalized_from Text.split_from] in *.
    destruct (Text.isspace c) eqn:Hc.
    + apply andb_true_iff in Hn as [Hn Hrest].
      apply andb_true_iff in Hn as [Hsp Hword].
      apply Ascii.eqb_eq in Hsp. subst c.
      destruct word as [|a word]; [discriminate|].
      specialize (IH "" Hrest). rewrite append_nil in IH.
      destruct (Text.split_from "" rest) as [|w ws] eqn:Hs.
      * cbn in IH. subst rest. discriminate.
      * rewrite join_cons by discriminate. now rewrite IH.
    + rewrite IH by now rewrite is_empty_snoc.
      apply append_snoc.
Qed.

(** X1.  The result of [clean_text] has no whitespace but single spaces
    between other characters, and the texts [clean_text] leaves unchanged
    are exactly the texts of that shape. *)
Theorem clean_text_normal_form (x : option string) (s : string) :
  normalized (Text.clean_text x) = true /\
  (Text.clean_text (Some s) = s <-> normalized s = true).
Proof.
  split; [apply clean_text_normalized|]. split.
  - intros H. rewrite <- H. apply clean_text_normalized.
  - destruct s as [|c s]; [reflexivity|]. intros H.
    rewrite clean_text_join by discriminate.
    apply (join_split_normalized (String c s) "" H).
Qed.

Lemma non_space_append a b : non_space (a +:+ b) = non_space a +:+ non_space b.
Proof.
  induction a as [|c a IH]; [reflexivity|].
  rewrite append_cons. cbn [non_space].
  destruct (Text.isspace c); [exact IH|].
  rewrite append_cons. now f_equal.
Qed.

Lemma non_space_word w : no_space w = true -> non_space w = w.
Proof.
  induction w as [|c w IH]; [reflexivity|]. cbn. intros H.
  apply andb_true_iff in H as [Hc Hw]. apply negb_true_iff in Hc.
  rewrite Hc. now rewrite IH.
Qed.

Lemma concat_split_from s :
  forall word,
  String.concat "" (Text.split_from word s) = word +:+ non_space s.
Proof.
  induction s as [|c rest IH]; intros word.
  - cbn. destruct word; [reflexivity|]. now rewrite append_empty_r.
  - cbn [Text.split_from non_space]. destruct (Text.isspace c).
    + destruct word as [|a word]; [apply (IH "")|].
      specialize (IH ""). rewrite append_nil in IH.
      destruct (Text.split_from "" rest) as [|w ws] eqn:Hs.
      * cbn in IH |- *. now rewrite <- IH, append_empty_r.
      * change (String.concat "" (String a word :: w :: ws))
          with (String a word +:+ ("" +:+ String.concat "" (w :: ws))).
        now rewrite append_nil, IH.
    + rewrite IH. apply append_snoc.
Qed.

Lemma non_space_join ws :
  Forall is_word ws ->
  non_space (Text.join " " ws) = String.concat "" ws.
Proof.
  induction 1 as [|w ws [Hne Hw] Hws IH]; [reflexivity|].
  destruct ws as [|w2 ws'].
  - cbn. now apply non_space_word.
  - rewrite join_cons by discriminate.
    rewrite non_space_append. cbn [non_space].
    change (Text.isspace " ") with true. cbv iota.
    rewrite IH, non_space_word by assumption. reflexivity.
Qed.

Lemma normalized_non_space_empty s :
  normalized s = true -> non_space s = "" -> s = "".
Proof.
  destruct s as [|c s]; [reflexivity|]. cbn.
  destruct (Text.isspace c); [|discriminate].
  rewrite andb_false_r. discriminate.
Qed.

(** X2.  [clean_text] changes whitespace only: the characters that are not
    whitespace come out unchanged and in order, and the result is empty
    exactly when the input has no such character. *)
Theorem clean_text_keeps_non_space (x : option string) :
  non_space (Text.clean_text x) = non_space (text_of_option x) /\
  (Text.clean_text x = "" <-> non_space (text_of_option x) = "").
Proof.
  assert (H : non_space (Text.clean_text x) = non_space (text_of_option x)).
  { destruct x as [t|]; [|reflexivity].
    destruct t as [|c t]; [reflexivity|].
    rewrite clean_text_join by discriminate.
    rewrite non_space_join by (apply split_from_words; reflexivity).
    apply (concat_split_from (String c t) ""). }
  split; [exact H|]. rewrite <- H. split.
  - now intros ->.
  - apply normalized_non_space_empty, clean_text_normalized.
Qed.

(** X3.  [replace] leaves a text without any occurrence of [old]
    unchanged; in [parse_xml] a document without the entity reaches the
    parser as it was received. *)
Theorem replace_without_occurrence (old new s : string) :
  Text.contains old s = false -> Text.replace old new s = s.
Proof.
  unfold Text.replace. induction s as [|c s IH]; [reflexivity|].
  intros H. cbn [Text.contains] in H.
  apply orb_false_iff in H as [Hp Hc].
  cbn [Text.replace_from]. rewrite Hp. now rewrite IH.
Qed.

Lemma replace_without_occurrence_witness :
  Text.replace "&nbsp;" " " "<Votacion><Boletin>9876-06</Boletin></Votacion>"
  = "<Votacion><Boletin>9876-06</Boletin></Votacion>".
Proof. apply replace_without_occurrence. vm_compute. reflexivity. Defined.

(** ** The fetcher, continued *)

Section FetcherOutcomes.
Variable requests_get : nat -> string -> response.

Abbreviation failure_trace := (failure_trace requests_get).

Lemma warnings_failure_trace (url : string) (sleep_time : Q) (todo : nat) :
  forall attempt n,
  warnings (failure_trace url sleep_time attempt n todo) = todo.
Proof.
  induction todo as [|todo IH]; intros attempt n; [reflexivity|].
  cbn [failure_trace]. rewrite warnings_app, IH. reflexivity.
Qed.

Lemma failed_gets_failure_trace (url : string) (sleep_time : Q)
  (todo : nat) :
  forall attempt n,
  (forall j, (j < todo)%nat -> failed (requests_get (n + j) url) = true) ->
  failed_gets (failure_trace url sleep_time attempt n todo) = todo.
Proof.
  induction todo as [|todo IH]; intros attempt n Hfail; [reflexivity|].
  cbn [failure_trace]. rewrite failed_gets_app, IH.
  - pose proof (Hfail 0%nat ltac:(lia)) as H0. rewrite Nat.add_0_r in H0.
    unfold failed_gets. cbn.
    destruct (requests_get n url); [discriminate | reflexivity].
  - intros j Hj. cbn. rewrite <- Nat.add_succ_r. apply Hfail. lia.
Qed.

Lemma attempts_success (url : string) (sleep_time : Q) (k : nat) :
  forall attempt todo s body,
  (k < todo)%nat ->
  (forall j, (j < k)%nat -> failed (requests_get (requests s + j) url) = true) ->
  requests_get (requests s + k) url = Content body ->
  attempts requests_get url sleep_time attempt todo s
  = (Some body, with_requests (requests s + k + 1) s,
     failure_trace url sleep_time attempt (requests s) k
     ++ [Sleep sleep_time; Get url (Content body)]).
Proof.
  induction k as [|k IH]; intros attempt todo s body Hlt Hfail Hok;
    (destruct todo as [|todo]; [lia|]); cbn [attempts failure_trace].
  - rewrite Nat.add_0_r in Hok.
    unfold bind, sleep, emit, http_get. rewrite Hok.
    unfold ret, with_requests. cbn. do 2 f_equal. f_equal. lia.
  - pose proof (Hfail 0%nat ltac:(lia)) as H0. rewrite Nat.add_0_r in H0.
    unfold bind at 1. cbn [sleep emit].
    unfold bind at 1. unfold http_get at 1.
    destruct (requests_get (requests s) url) as [b0|e] eqn:Hr; [discriminate|].
    unfold bind at 1. cbn [logging emit].
    unfold bind at 1. cbn [sleep emit].
    rewrite (IH _ todo _ body).
    + cbn. unfold with_requests. cbn. do 2 f_equal. f_equal. lia.
    + lia.
    + intros j Hj. cbn. rewrite <- Nat.add_succ_r. apply Hfail. lia.
    + cbn. rewrite <- Nat.add_succ_r. exact Hok.
Qed.

(** Every run of the retry loop is one of two: all [todo] requests fail,
    or some request [k] is the first to succeed. *)
Lemma attempts_cases (url : string) (sleep_time : Q) (todo : nat) :
  forall n,
  (forall j, (j < todo)%nat -> failed (requests_get (n + j) url) = true)
  \/ exists k body,
       (k < todo)%nat /\
       (forall j, (j < k)%nat -> failed (requests_get (n + j) url) = true) /\
       requests_get (n + k) url = Content body.
Proof.
  induction todo as [|todo IH]; intros n; [left; intros j Hj; lia|].
  destruct (requests_get n url) as [body|e] eqn:Hr.
  - right. exists 0%nat, body. rewrite Nat.add_0_r.
    split; [lia|]. split; [intros j Hj; lia | exact Hr].
  - destruct (IH (S n)) as [Hall | (k & body & Hk & Hfail & Hok)].
    + left. intros [|j] Hj.
      * rewrite Nat.add_0_r, Hr. reflexivity.
      * rewrite Nat.add_succ_r. apply (Hall j). lia.
    + right. exists (S k), body. split; [lia|]. split.
      * intros [|j] Hj.
        -- rewrite Nat.add_0_r, Hr. reflexivity.
        -- rewrite Nat.add_succ_r. apply (Hfail j). lia.
      * rewrite Nat.add_succ_r. exact Hok.
Qed.

Lemma fetch_content_success (url : string) (retries : Z) (sleep_time : Q)
  (s : state) (k : nat) (body : string) :
  (k < Z.to_nat retries)%nat ->
  (forall j, (j < k)%nat -> failed (requests_get (requests s + j) url) = true) ->
  requests_get (requests s + k) url = Content body ->
  fetch_content_with requests_get url retries sleep_time s
  = (Some body, with_requests (requests s + k + 1) s,
     failure_trace url sleep_time 0 (requests s) k
     ++ [Sleep sleep_time; Get url (Content body)]).
Proof.
  intros Hk Hfail Hok. unfold fetch_content_with, bind.
  rewrite (attempts_success url sleep_time k 0 _ s body Hk Hfail Hok).
  unfold ret. now rewrite app_nil_r.
Qed.

(** X4.  When the first [k] requests fail and request [k+1] is answered
    (with [k] below [retries]), the fetcher returns that body, empty or
    not, after exactly [k+1] requests and [k] warnings, and logs no
    error. *)
Theorem fetch_content_first_success (url : string) (retries : Z)
  (sleep_time : Q) (s : state) (k : nat) (body : string) :
  (0 <= sleep_time)%Q ->
  (k < Z.to_nat retries)%nat ->
  (forall j, (j < k)%nat -> failed (requests_get (requests s + j) url) = true) ->
  requests_get (requests s + k) url = Content body ->
  value (fetch_content_with requests_get url retries sleep_time s) = Some body /\
  gets_of url (events (fetch_content_with requests_get url retries
                                          sleep_time s)) = S k /\
  warnings (events (fetch_content_with requests_get url retries
                                       sleep_time s)) = k /\
  List.filter (fun e => match e with Log ERROR _ => true | _ => false end)
    (events (fetch_content_with requests_get url retries sleep_time s)) = [].
Proof.
  intros _ Hk Hfail Hok.
  rewrite (fetch_content_success url retries sleep_time s k body Hk Hfail Hok).
  unfold value, events. cbn [fst snd].
  split; [reflexivity|]. split; [|split].
  - rewrite gets_of_app, gets_of_failure_trace. unfold gets_of. cbn.
    rewrite String.eqb_refl. cbn. lia.
  - rewrite warnings_app, warnings_failure_trace. cbn. lia.
  - rewrite List.filter_app. cbn. rewrite app_nil_r.
    clear. generalize 0%nat (requests s).
    induction k as [|k IH]; intros a n; [reflexivity|].
    cbn [failure_trace]. rewrite List.filter_app. cbn. apply IH.
Qed.

(** X5.  Whatever the service answers, the fetcher issues at most
    [retries] requests, all for its URL, and never touches the caches; it
    returns [None] only after [retries] failed requests, and a body only
    when its last request was answered. *)
Theorem fetch_content_bounded (url : string) (retries : Z) (sleep_time : Q)
  (s : state) :
  (0 <= sleep_time)%Q ->
  (gets_of url (events (fetch_content_with requests_get url retries
                                           sleep_time s))
   <= Z.to_nat retries)%nat /\
  same_caches s (final (fetch_content_with requests_get url retries
                                           sleep_time s)) /\
  requests (final (fetch_content_with requests_get url retries sleep_time s))
  = (requests s
     + gets_of url (events (fetch_content_with requests_get url retries
                                               sleep_time s)))%nat /\
  (value (fetch_content_with requests_get url retries sleep_time s) = None ->
   failed_gets (events (fetch_content_with requests_get url retries
                                           sleep_time s)) = Z.to_nat retries) /\
  (forall body,
     value (fetch_content_with requests_get url retries sleep_time s)
     = Some body ->
     exists evs,
       events (fetch_content_with requests_get url retries sleep_time s)
       = evs ++ [Get url (Content body)]).
Proof.
  intros _.
  destruct (attempts_cases url sleep_time (Z.to_nat retries) (requests s))
    as [Hall | (k & body & Hk & Hfail & Hok)].
  - rewrite (fetch_content_all_fail requests_get url retries sleep_time s Hall).
    unfold value, final, events. cbn [fst snd].
    rewrite gets_of_app, gets_of_failure_trace, failed_gets_app,
      failed_gets_failure_trace by exact Hall.
    cbn. repeat split; try lia. intros body H. discriminate.
  - rewrite (fetch_content_success url retries sleep_time s k body Hk Hfail Hok).
    unfold value, final, events. cbn [fst snd].
    rewrite gets_of_app, gets_of_failure_trace.
    replace (gets_of url [Sleep sleep_time; Get url (Content body)])
      with 1%nat by (unfold gets_of; cbn; now rewrite String.eqb_refl).
    split; [lia|]. split; [apply same_caches_with_requests|].
    split; [cbn; lia|]. split; [discriminate|].
    intros b Hb. injection Hb as <-.
    exists (failure_trace url sleep_time 0 (requests s) k ++ [Sleep sleep_time]).
    now rewrite <- app_assoc.
Qed.

End FetcherOutcomes.

(** ** The resolution stages, continued *)

Section StageOutcomes.
Variable requests_get : nat -> string -> response.
Variable ET_fromstring : string -> string + option element.
Variable BeautifulSoup : string -> string + node.
Variable query_prmID : string -> string.

Abbreviation fetch_boletin_for_vote :=
  (fetch_boletin_for_vote requests_get ET_fromstring).
Abbreviation fetch_proyecto_id_from_tramitacion :=
  (fetch_proyecto_id_from_tramitacion requests_get BeautifulSoup query_prmID).
Abbreviation fetch_urgencias := (fetch_urgencias requests_get BeautifulSoup).
Abbreviation process_vote :=
  (process_vote requests_get ET_fromstring BeautifulSoup query_prmID).
Abbreviation for_votes :=
  (for_votes requests_get ET_fromstring BeautifulSoup query_prmID).
Abbreviation main :=
  (main requests_get ET_fromstring BeautifulSoup query_prmID).
Abbreviation page_of := (page_of requests_get BeautifulSoup).

Lemma fetch_boletin_for_vote_hit (v b : string) (s : state) :
  vote_to_boletin s !! v = Some b ->
  fetch_boletin_for_vote v s = (b, s, []).
Proof.
  intros Hc.
  destruct (fetch_boletin_for_vote_spec requests_get ET_fromstring v s)
    as [(c & Hc' & Heq) | (Hn & _)]; congruence.
Qed.

Lemma fetch_proyecto_id_from_tramitacion_hit (b p : string) (s : state) :
  b <> "" -> boletin_to_project_id s !! b = Some p ->
  fetch_proyecto_id_from_tramitacion b s = (p, s, []).
Proof.
  intros Hb Hc.
  destruct (fetch_proyecto_id_from_tramitacion_spec
              requests_get BeautifulSoup query_prmID b s)
    as [(He & _) | [(_ & c & Hc' & Heq) | (_ & Hn & _)]]; congruence.
Qed.

Lemma fetch_urgencias_hit (p b : string) (l : list urgency) (s : state) :
  p <> "" -> project_urgencies s !! cache_key p b = Some l ->
  fetch_urgencias p b s = (l, s, []).
Proof.
  intros Hp Hc.
  destruct (fetch_urgencias_spec requests_get BeautifulSoup p b s)
    as [(He & _) | [(_ & c & Hc' & Heq) | (_ & Hn & _)]]; congruence.
Qed.

(** X6.  A bulletin or a project id that came back not empty is served
    from the cache by the next call with the same key: same value, no
    request, no log, state unchanged. *)
Theorem positive_results_are_memoized (v b : string) (s s' : state) :
  value (fetch_boletin_for_vote v s) <> "" ->
  value (fetch_proyecto_id_from_tramitacion b s') <> "" ->
  fetch_boletin_for_vote v (final (fetch_boletin_for_vote v s))
  = (value (fetch_boletin_for_vote v s),
     final (fetch_boletin_for_vote v s), []) /\
  fetch_proyecto_id_from_tramitacion b
    (final (fetch_proyecto_id_from_tramitacion b s'))
  = (value (fetch_proyecto_id_from_tramitacion b s'),
     final (fetch_proyecto_id_from_tramitacion b s'), []).
Proof.
  intros H1 H2. split.
  - apply fetch_boletin_for_vote_hit.
    destruct (fetch_boletin_for_vote_spec requests_get ET_fromstring v s)
      as [(c & Hc & Heq) | (_ & c & n & evs & Heq & _)];
      rewrite Heq in H1 |- *; unfold value, final in *; cbn [fst snd] in *.
    + exact Hc.
    + apply truthy_true in H1. rewrite H1. cbn. apply lookup_insert_eq.
  - assert (Hb : b <> "").
    { intros ->. apply H2.
      now destruct (fetch_proyecto_id_from_tramitacion_spec
                      requests_get BeautifulSoup query_prmID "" s')
        as [(_ & ->) | [(Hn & _) | (Hn & _)]]. }
    apply fetch_proyecto_id_from_tramitacion_hit; [exact Hb|].
    apply (fetch_proyecto_id_from_tramitacion_learns
             requests_get BeautifulSoup query_prmID b _ s' eq_refl H2).
Qed.

(** X7.  Once the urgency page of a pair has been fetched and parsed, its
    list of records is stored, also when it is empty, and the next call
    for the pair returns it with no request. *)
Theorem parsed_urgencies_are_memoized (p b : string) (soup : node)
  (s : state) :
  p <> "" ->
  project_urgencies s !! cache_key p b = None ->
  page_of (urgencias_url p b) s = Some soup ->
  value (fetch_urgencias p b s) = urgencies_of_page soup /\
  fetch_urgencias p b (final (fetch_urgencias p b s))
  = (urgencies_of_page soup, final (fetch_urgencias p b s), []).
Proof.
  intros Hp Hnone Hpage.
  destruct (fetch_urgencias_spec requests_get BeautifulSoup p b s)
    as [(He & _) | [(_ & l & Hc & _) | (_ & _ & n & evs & _ & _ & Heq)]];
    [congruence | congruence |].
  rewrite Hpage in Heq. rewrite Heq. unfold value, final. cbn [fst snd].
  split; [reflexivity|].
  apply fetch_urgencias_hit; [exact Hp|]. cbn. apply lookup_insert_eq.
Qed.

(** X8.  The urgency cache is keyed by the concatenation
    [project_id + "_" + boletin]: after the page of one pair is stored,
    a call for another pair with the same concatenation returns the first
    pair's records and issues no request. *)
Theorem cache_key_is_shared (p b p' b' : string) (soup : node) (s : state) :
  p <> "" -> p' <> "" ->
  cache_key p b = cache_key p' b' ->
  project_urgencies s !! cache_key p b = None ->
  page_of (urgencias_url p b) s = Some soup ->
  fetch_urgencias p' b' (final (fetch_urgencias p b s))
  = (urgencies_of_page soup, final (fetch_urgencias p b s), []).
Proof.
  intros Hp Hp' Hkey Hnone Hpage.
  apply fetch_urgencias_hit; [exact Hp'|]. rewrite <- Hkey.
  destruct (fetch_urgencias_spec requests_get BeautifulSoup p b s)
    as [(He & _) | [(_ & l & Hc & _) | (_ & _ & n & evs & _ & _ & Heq)]];
    [congruence | congruence |].
  rewrite Hpage in Heq. rewrite Heq. unfold final. cbn.
  apply lookup_insert_eq.
Qed.

Lemma process_vote_no_project (v : string) (results : list output_row)
  (s : state) (b : string) :
  value (fetch_boletin_for_vote v s) = b -> b <> "" ->
  value (fetch_proyecto_id_from_tramitacion b
           (final (fetch_boletin_for_vote v s))) = "" ->
  process_vote v results s
  = (results,
     final (fetch_proyecto_id_from_tramitacion b
              (final (fetch_boletin_for_vote v s))),
     events (fetch_boletin_for_vote v s) ++
     events (fetch_proyecto_id_from_tramitacion b
               (final (fetch_boletin_for_vote v s))) ++
     [Log WARNING ("Could not find project ID for boletin " +:+ b)]).
Proof.
  unfold process_vote, bind, value, final, events.
  destruct (fetch_boletin_for_vote v s) as [[b1 s1] e1]. cbn [fst snd].
  intros -> Hb. apply truthy_true in Hb. rewrite Hb. cbn [negb].
  destruct (fetch_proyecto_id_from_tramitacion b s1) as [[p1 s2] e2].
  cbn [fst snd]. intros ->. reflexivity.
Qed.

(** X9.  When the bulletin is found but its tramitacion page gives no
    project id, the loop body adds no row, logs one warning naming the
    bulletin as its last event, and issues no request for any urgency
    listing. *)
Theorem missing_project_id_warns (v : string) (results : list output_row)
  (s : state) (b : string) :
  value (fetch_boletin_for_vote v s) = b -> b <> "" ->
  value (fetch_proyecto_id_from_tramitacion b
           (final (fetch_boletin_for_vote v s))) = "" ->
  value (process_vote v results s) = results /\
  events (process_vote v results s)
  = events (fetch_boletin_for_vote v s) ++
    events (fetch_proyecto_id_from_tramitacion b
              (final (fetch_boletin_for_vote v s))) ++
    [Log WARNING ("Could not find project ID for boletin " +:+ b)] /\
  (forall p b',
     gets_of (urgencias_url p b') (events (process_vote v results s)) = 0%nat).
Proof.
  intros Hb Hbne Hp.
  pose proof (process_vote_no_project v results s b Hb Hbne Hp) as Heq.
  split; [now rewrite Heq|]. split; [now rewrite Heq|].
  intros p b'. rewrite Heq. unfold events at 1. cbn [snd].
  rewrite !gets_of_app.
  rewrite (gets_of_other (vote_url v));
    [| apply fetch_boletin_for_vote_trace | apply vote_url_not_urgencias].
  rewrite (gets_of_other (tramitacion_url b));
    [| apply fetch_proyecto_id_from_tramitacion_trace
     | intros H; symmetry in H; revert H; apply tramitacion_url_not_urgencias].
  reflexivity.
Qed.


(** *** What a whole run keeps *)

Lemma bind_value {A B} (m : M A) (f : A -> M B) (s : state) :
  value (bind m f s) = value (f (value (m s)) (final (m s))).
Proof.
  unfold bind, value, final. destruct (m s) as [[a s1] e1]. cbn.
  now destruct (f a s1) as [[c s2] e2].
Qed.

Lemma bind_final {A B} (m : M A) (f : A -> M B) (s : state) :
  final (bind m f s) = final (f (value (m s)) (final (m s))).
Proof.
  unfold bind, value, final. destruct (m s) as [[a s1] e1]. cbn.
  now destruct (f a s1) as [[c s2] e2].
Qed.

Lemma bind_events {A B} (m : M A) (f : A -> M B) (s : state) :
  events (bind m f s)
  = events (m s) ++ events (f (value (m s)) (final (m s))).
Proof.
  unfold bind, value, final, events. destruct (m s) as [[a s1] e1]. cbn.
  now destruct (f a s1) as [[c s2] e2].
Qed.

Lemma grows_refl (s : state) : grows s s.
Proof. repeat split; reflexivity. Qed.

Lemma extends_refl (s : state) : extends s s.
Proof. split; [apply grows_refl | auto]. Qed.

Lemma extends_trans (s1 s2 s3 : state) :
  extends s1 s2 -> extends s2 s3 -> extends s1 s3.
Proof.
  intros [(A1 & B1 & C1) K1] [(A2 & B2 & C2) K2]. split; [|auto].
  repeat split; etrans; eassumption.
Qed.

Lemma fetch_boletin_for_vote_extends (v : string) (s : state) :
  extends s (final (fetch_boletin_for_vote v s)).
Proof.
  split; [|apply fetch_boletin_for_vote_cache_ok].
  destruct (fetch_boletin_for_vote_spec requests_get ET_fromstring v s)
    as [(c & _ & ->) | (Hn & c & n & evs & -> & _)]; [apply grows_refl|].
  unfold final. cbn [fst snd].
  destruct (Text.truthy c); [|exact (grows_refl s)].
  split; [|split; reflexivity]. cbn. now apply insert_subseteq.
Qed.

Lemma fetch_proyecto_id_from_tramitacion_extends (b : string) (s : state) :
  extends s (final (fetch_proyecto_id_from_tramitacion b s)).
Proof.
  split; [|apply fetch_proyecto_id_from_tramitacion_cache_ok].
  destruct (fetch_proyecto_id_from_tramitacion_spec
              requests_get BeautifulSoup query_prmID b s)
    as [(_ & ->) | [(_ & c & _ & ->) | (_ & Hn & c & n & evs & -> & _)]];
    [apply grows_refl | apply grows_refl |].
  unfold final. cbn [fst snd].
  destruct (Text.truthy c); [|exact (grows_refl s)].
  split; [reflexivity|]. split; [|reflexivity]. cbn. now apply insert_subseteq.
Qed.

Lemma fetch_urgencias_extends (p b : string) (s : state) :
  extends s (final (fetch_urgencias p b s)).
Proof.
  split; [|apply fetch_urgencias_cache_ok].
  destruct (fetch_urgencias_spec requests_get BeautifulSoup p b s)
    as [(_ & ->) | [(_ & l & _ & ->) | (_ & Hn & n & evs & _ & _ & Heq)]];
    [apply grows_refl | apply grows_refl |].
  destruct (page_of _ s); rewrite Heq; unfold final; cbn [fst snd];
    [|exact (grows_refl s)].
  split; [reflexivity|]. split; [reflexivity|]. cbn. now apply insert_subseteq.
Qed.

Ltac case_truthy :=
  match goal with
  | |- context [negb (Text.truthy ?x)] =>
      destruct (Text.truthy x); cbn [negb]
  end.

Ltac case_list :=
  match goal with
  | |- context [match ?l with [] => _ | _ :: _ => _ end] => destruct l
  end.

Lemma process_vote_extends (v : string) (results : list output_row)
  (s : state) :
  extends s (final (process_vote v results s)).
Proof.
  unfold process_vote. rewrite bind_final.
  eapply extends_trans; [apply fetch_boletin_for_vote_extends|].
  case_truthy; [|apply extends_refl].
  rewrite bind_final.
  eapply extends_trans; [apply fetch_proyecto_id_from_tramitacion_extends|].
  case_truthy; [|apply extends_refl].
  rewrite bind_final.
  eapply extends_trans; [apply fetch_urgencias_extends|].
  case_list; apply extends_refl.
Qed.

(** X10.  A run only adds to the caches: every entry present before the
    run is present, unchanged, after it, and no empty bulletin or project
    id is ever stored. *)
Theorem run_extends_caches (vote_ids : list string)
  (results : list output_row) (s : state) :
  cache_ok s ->
  grows s (final (for_votes vote_ids results s)) /\
  cache_ok (final (for_votes vote_ids results s)).
Proof.
  intros Hok.
  assert (H : extends s (final (for_votes vote_ids results s))).
  { clear Hok. revert results s.
    induction vote_ids as [|v rest IH]; intros results s;
      [apply extends_refl|].
    rewrite for_votes_cons, bind_final.
    eapply extends_trans; [apply process_vote_extends | apply IH]. }
  destruct H as [Hg Hk]. split; [exact Hg | exact (Hk Hok)].
Qed.

Lemma rows_for_of_seed (v b p : string) (l : list urgency) :
  b <> "" -> p <> "" -> Forall (row_of_seed v) (rows_for v b p l).
Proof.
  intros Hb Hp. destruct l as [|u l]; cbn [rows_for].
  - repeat constructor; assumption.
  - apply Forall_map. apply Forall_forall. intros x _.
    repeat split; assumption.
Qed.

Lemma process_vote_rows (v : string) (results : list output_row) (s : state) :
  exists group,
    value (process_vote v results s) = results ++ group /\
    Forall (row_of_seed v) group.
Proof.
  destruct (String.eqb_spec (value (fetch_boletin_for_vote v s)) "")
    as [Hb|Hb].
  { exists []. rewrite (process_vote_no_boletin _ _ _ _ v results s Hb).
    split; [now rewrite app_nil_r | constructor]. }
  destruct (String.eqb_spec
              (value (fetch_proyecto_id_from_tramitacion
                        (value (fetch_boletin_for_vote v s))
                        (final (fetch_boletin_for_vote v s)))) "")
    as [Hp|Hp].
  { exists []. rewrite (process_vote_no_project v results s _ eq_refl Hb Hp).
    split; [now rewrite app_nil_r | constructor]. }
  eexists. rewrite (process_vote_resolved _ _ _ _ v results s _ _
                                          eq_refl Hb eq_refl Hp).
  split; [reflexivity|]. now apply rows_for_of_seed.
Qed.

(** X11.  The rows of a run are the rows given plus one group per seed, in
    seed order; every row of a seed's group carries that seed's vote id
    and a bulletin and a project id that are not empty (a seed whose
    chain did not resolve has an empty group). *)
Theorem rows_are_grouped_by_seed (vote_ids : list string)
  (results : list output_row) (s : state) :
  exists groups,
    value (for_votes vote_ids results s) = results ++ concat groups /\
    Forall2 (fun v group => Forall (row_of_seed v) group) vote_ids groups.
Proof.
  revert results s.
  induction vote_ids as [|v rest IH]; intros results s.
  - exists []. split; [now rewrite app_nil_r | constructor].
  - rewrite for_votes_cons, bind_value.
    destruct (process_vote_rows v results s) as (g & Hv & Hg).
    rewrite Hv.
    destruct (IH (results ++ g) (final (process_vote v results s)))
      as (gs & Hvs & Hgs).
    exists (g :: gs). split; [|now constructor].
    rewrite Hvs. cbn [concat]. now rewrite app_assoc.
Qed.

Lemma fetch_boletin_for_vote_learns (v b : string) (s : state) :
  value (fetch_boletin_for_vote v s) = b -> b <> "" ->
  vote_to_boletin (final (fetch_boletin_for_vote v s)) !! v = Some b.
Proof.
  intros Hval Hne.
  destruct (fetch_boletin_for_vote_spec requests_get ET_fromstring v s)
    as [(c & Hc & Heq) | (_ & c & n & evs & Heq & _)];
    rewrite Heq in Hval |- *; unfold value, final in *; cbn [fst snd] in *;
    subst c.
  - exact Hc.
  - apply truthy_true in Hne. rewrite Hne. cbn. apply lookup_insert_eq.
Qed.

(** X21.  A seed that resolved, with its urgency list in the cache after
    its iteration, costs nothing when it comes again: in the state the
    iteration left, the loop body appends the same rows, issues no request,
    logs nothing and leaves the state as it is. *)
Theorem resolved_seed_replays_from_cache (v : string)
  (results results' : list output_row) (s : state) (b p : string)
  (urgency_list : list urgency) :
  value (fetch_boletin_for_vote v s) = b -> b <> "" ->
  value (fetch_proyecto_id_from_tramitacion b
           (final (fetch_boletin_for_vote v s))) = p -> p <> "" ->
  project_urgencies (final (process_vote v results s)) !! cache_key p b
  = Some urgency_list ->
  process_vote v results' (final (process_vote v results s))
  = (results' ++ rows_for v b p urgency_list,
     final (process_vote v results s), []).
Proof.
  intros Hb Hbne Hp Hpne Hus.
  set (s1 := final (fetch_boletin_for_vote v s)) in *.
  set (s2 := final (fetch_proyecto_id_from_tramitacion b s1)) in *.
  assert (Hs3 : final (process_vote v results s)
                = final (fetch_urgencias p b s2)).
  { unfold s2, s1.
    now rewrite (process_vote_resolved _ _ _ _ v results s b p
                                       Hb Hbne Hp Hpne). }
  rewrite Hs3 in *. set (s3 := final (fetch_urgencias p b s2)) in *.
  assert (Hvb : vote_to_boletin s3 !! v = Some b).
  { pose proof (fetch_boletin_for_vote_learns v b s Hb Hbne) as H1.
    fold s1 in H1.
    destruct (fetch_proyecto_id_from_tramitacion_extends b s1)
      as [(G2 & _ & _) _].
    destruct (fetch_urgencias_extends p b s2) as [(G3 & _ & _) _].
    fold s2 in G2. fold s3 in G3.
    eapply lookup_weaken; [|exact G3].
    eapply lookup_weaken; [exact H1 | exact G2]. }
  assert (Hbp : boletin_to_project_id s3 !! b = Some p).
  { pose proof (fetch_proyecto_id_from_tramitacion_learns
                  requests_get BeautifulSoup query_prmID b p s1 Hp Hpne) as H2.
    unfold known in H2. fold s2 in H2.
    destruct (fetch_urgencias_extends p b s2) as [(_ & G3 & _) _].
    fold s3 in G3. eapply lookup_weaken; [exact H2 | exact G3]. }
  pose proof (fetch_boletin_for_vote_hit v b s3 Hvb) as E1.
  pose proof (fetch_proyecto_id_from_tramitacion_hit b p s3 Hbne Hbp) as E2.
  pose proof (fetch_urgencias_hit p b urgency_list s3 Hpne Hus) as E3.
  rewrite (process_vote_resolved _ _ _ _ v results' s3 b p);
    rewrite ?E1; unfold value, final, events; cbn [fst snd];
    rewrite ?E2; cbn [fst snd]; rewrite ?E3; cbn [fst snd];
    try reflexivity; assumption.
Qed.

(** *** What [main] writes *)

Lemma csv_writes_app (e1 e2 : list event) :
  csv_writes (e1 ++ e2) = csv_writes e1 ++ csv_writes e2.
Proof. unfold csv_writes. now rewrite flat_map_app. Qed.

Lemma requests_in_app (e1 e2 : list event) :
  requests_in (e1 ++ e2) = (requests_in e1 + requests_in e2)%nat.
Proof. unfold requests_in. now rewrite List.filter_app, length_app. Qed.

Lemma csv_writes_own (url : string) (evs : list event) :
  Forall (own url) evs -> csv_writes evs = [].
Proof.
  induction 1 as [|e evs He _ IH]; [reflexivity|].
  destruct e; cbn in *; try exact IH. contradiction.
Qed.

Lemma process_vote_no_csv (v : string) (results : list output_row)
  (s : state) :
  csv_writes (events (process_vote v results s)) = [].
Proof.
  unfold process_vote. rewrite bind_events, csv_writes_app.
  rewrite (csv_writes_own (vote_url v))
    by apply fetch_boletin_for_vote_trace.
  case_truthy; [|reflexivity].
  rewrite bind_events, csv_writes_app.
  rewrite (csv_writes_own (tramitacion_url _))
    by apply fetch_proyecto_id_from_tramitacion_trace.
  case_truthy; [|reflexivity].
  rewrite bind_events, csv_writes_app.
  rewrite (csv_writes_own (urgencias_url _ _))
    by apply fetch_urgencias_trace.
  now case_list.
Qed.

Lemma for_votes_no_csv (vote_ids : list string) :
  forall results s, csv_writes (events (for_votes vote_ids results s)) = [].
Proof.
  induction vote_ids as [|v rest IH]; intros results s; [reflexivity|].
  rewrite for_votes_cons, bind_events, csv_writes_app.
  now rewrite process_vote_no_csv, IH.
Qed.

Lemma final_logging (lv : level) (msg : string) (s : state) :
  final (logging lv msg s) = s.
Proof. reflexivity. Qed.


End StageOutcomes.

(** ** The extractors, continued *)

Lemma cell_normalized (cols : list node) (i : nat) :
  normalized (cell cols i) = true.
Proof. apply clean_text_normalized. Qed.

Lemma record_of_cells_normalized (cols : list node) :
  urgency_normalized (record_of_cells cols) = true.
Proof.
  unfold urgency_normalized, record_of_cells.
  cbn [urgencia_fecha_inicio urgencia_fecha_termino urgencia_tipo
       urgencia_oficio urgencia_mensaje_ing urgencia_mensaje_ret].
  rewrite !cell_normalized. cbn [andb].
  destruct (5 <? length cols)%nat; [apply cell_normalized | reflexivity].
Qed.

Lemma field_normalized (root : element) :
  normalized (boletin_of_record root) = true.
Proof.
  unfold boletin_of_record.
  destruct (Xml.find_any_ns "Boletin" root);
    [apply clean_text_normalized|].
  destruct (Xml.find_child "Boletin" root);
    [apply clean_text_normalized | reflexivity].
Qed.

(** X13.  Every text that the extractors put into the data model is
    normalized: the bulletin of a vote record and the six fields of every
    urgency record of a page. *)
Theorem extracted_texts_are_normalized (root : element) (soup : node) :
  normalized (boletin_of_record root) = true /\
  Forall (fun u => urgency_normalized u = true) (urgencies_of_page soup).
Proof.
  split; [apply field_normalized|].
  unfold urgencies_of_page. rewrite find_target_table_find.
  destruct (List.find has_marker (Soup.find_all "table" soup));
    [|constructor].
  rewrite fold_row_step. cbn [app]. unfold records_of_rows.
  apply Forall_map, Forall_forall. intros row _.
  apply record_of_cells_normalized.
Qed.

(** X14.  A row with six cells or more fills [urgencia_mensaje_ret] from
    the sixth cell, and the cells after the sixth are ignored. *)
Theorem six_cell_row_reads_six (urgencies : list urgency) (row : node)
  (c0 c1 c2 c3 c4 c5 : node) (more : list node) :
  Soup.find_all "td" row = [c0; c1; c2; c3; c4; c5] ++ more ->
  row_step urgencies row
  = urgencies ++
    [ {| urgencia_fecha_inicio := Text.clean_text (Some (Soup.get_text c0));
         urgencia_fecha_termino := Text.clean_text (Some (Soup.get_text c1));
         urgencia_tipo := Text.clean_text (Some (Soup.get_text c2));
         urgencia_oficio := Text.clean_text (Some (Soup.get_text c3));
         urgencia_mensaje_ing := Text.clean_text (Some (Soup.get_text c4));
         urgencia_mensaje_ret :=
           Text.clean_text (Some (Soup.get_text c5)) |} ].
Proof. intros Hcols. unfold row_step. rewrite Hcols. reflexivity. Qed.

Lemma six_cell_row_reads_six_witness :
  row_step [] seven_cell_row
  = [ {| urgencia_fecha_inicio := "01/03/2023";
         urgencia_fecha_termino := "16/03/2023";
         urgencia_tipo := "Suma";
         urgencia_oficio := "123-371";
         urgencia_mensaje_ing := "001-371";
         urgencia_mensaje_ret := "002-371" |} ].
Proof.
  apply (six_cell_row_reads_six [] seven_cell_row
           (td "01/03/2023") (td "16/03/2023") (td "Suma") (td "123-371")
           (td "001-371") (td " 002-371") [td "ver"] eq_refl).
Defined.

Lemma children_in_descendants (root c : element) :
  In c (Xml.children_of root) -> In c (Xml.descendants root).
Proof.
  destruct root as [ns tag text cs]. cbn [Xml.children_of Xml.descendants].
  induction cs as [|d cs IH]; [contradiction|].
  intros [->|Hin]; [now left|].
  right. apply in_or_app. right. apply IH, Hin.
Qed.

Lemma find_child_none (tag : string) (root : element) :
  Xml.find_any_ns tag root = None -> Xml.find_child tag root = None.
Proof.
  unfold Xml.find_any_ns, Xml.find_child. intros Hnone.
  destruct (List.find _ (Xml.children_of root)) as [c|] eqn:Hc;
    [|reflexivity].
  apply List.find_some in Hc as [Hin Hp].
  apply children_in_descendants in Hin.
  pose proof (List.find_none _ _ Hnone c Hin) as Hq. cbn in Hq.
  destruct c as [[ns|] t text cs]; [discriminate | congruence].
Qed.

(** X15.  The second lookup of the bulletin, [root.find("Boletin")], never
    finds an element the first, [root.find(".//{*}Boletin")], missed: the
    bulletin of a record is the cleaned text of the first element named
    [Boletin] below the root, in any namespace, and empty when there is
    none. *)
Theorem boletin_fallback_is_redundant (root : element) :
  boletin_of_record root
  = match Xml.find_any_ns "Boletin" root with
    | Some found => Text.clean_text (Xml.text_of found)
    | None => ""
    end.
Proof.
  unfold boletin_of_record.
  destruct (Xml.find_any_ns "Boletin" root) eqn:H; [reflexivity|].
  now rewrite (find_child_none "Boletin" root H).
Qed.

(** ** The metadata script *)

Lemma votaciones_fold_rows (b : string) (rows : list node) :
  forall votaciones,
  fold_left (Votaciones.row_step b) rows votaciones
  = votaciones ++
    map (voting_of_row b)
        (List.filter (fun row => (4 <=? length (Soup.find_all "td" row))%nat)
                     rows).
Proof.
  induction rows as [|row rows IH]; intros votaciones.
  - cbn. now rewrite app_nil_r.
  - cbn [fold_left List.filter]. rewrite IH. unfold Votaciones.row_step.
    destruct (Nat.ltb_spec (length (Soup.find_all "td" row)) 4) as [Hlt|Hge];
      destruct (Nat.leb_spec 4 (length (Soup.find_all "td" row))); try lia.
    + reflexivity.
    + cbn [map]. now rewrite <- app_assoc.
Qed.

Lemma votaciones_table_step (b : string) (table : node)
  (votaciones : list Votaciones.bulletin_voting) :
  Votaciones.table_step b votaciones table
  = votaciones ++
    (if has_fecha_header table then votings_of_table b table else []).
Proof.
  unfold Votaciones.table_step, has_fecha_header, votings_of_table.
  destruct (Soup.find_all "tr" table) as [|first rest];
    [now rewrite app_nil_r|].
  destruct (existsb _ _); cbn [negb skipn].
  - apply votaciones_fold_rows.
  - now rewrite app_nil_r.
Qed.

Lemma votaciones_fold_tables (b : string) (tables : list node) :
  forall votaciones,
  fold_left (Votaciones.table_step b) tables votaciones
  = votaciones ++
    flat_map (votings_of_table b) (List.filter has_fecha_header tables).
Proof.
  induction tables as [|t tables IH]; intros votaciones.
  - cbn. now rewrite app_nil_r.
  - cbn [fold_left List.filter]. rewrite IH, votaciones_table_step.
    destruct (has_fecha_header t).
    + cbn [flat_map]. now rewrite <- app_assoc.
    + now rewrite app_nil_r.
Qed.

(** X16.  The table part of [fetch_votaciones_boletin] takes every table
    whose first row has a cell containing "Fecha", in document order (it
    does not stop at the first), and from each the rows after the first
    with at least four cells; every entry carries the bulletin asked
    for. *)
Theorem votaciones_of_page_locates (b : string) (soup : node) :
  Votaciones.votaciones_of_page b soup = locate_votaciones b soup /\
  Forall (fun r => Votaciones.boletin_context r = b)
         (Votaciones.votaciones_of_page b soup).
Proof.
  assert (H : Votaciones.votaciones_of_page b soup = locate_votaciones b soup)
    by apply (votaciones_fold_tables b _ []).
  split; [exact H|]. rewrite H. unfold locate_votaciones.
  apply Forall_flat_map, Forall_forall. intros t _.
  unfold votings_of_table. apply Forall_map, Forall_forall. now intros.
Qed.

Section VotacionesOutcomes.
Variable requests_get : nat -> string -> response.
Variable ET_fromstring : string -> string + option element.
Variable BeautifulSoup : string -> string + node.
Variable element_get : element -> string -> option string.

Import Votaciones.

Abbreviation fetch_votacion_detalle :=
  (Votaciones.fetch_votacion_detalle requests_get ET_fromstring element_get).
Abbreviation fetch_votaciones_boletin :=
  (Votaciones.fetch_votaciones_boletin requests_get BeautifulSoup).
Abbreviation votaciones_process_vote :=
  (Votaciones.process_vote requests_get ET_fromstring BeautifulSoup
                           element_get).
Abbreviation votaciones_for_votes :=
  (Votaciones.for_votes requests_get ET_fromstring BeautifulSoup element_get).

Lemma bindV_value {A B} (m : MV A) (f : A -> MV B) (s : vstate) :
  valueV (bindV m f s) = valueV (f (valueV (m s)) (finalV (m s))).
Proof.
  unfold bindV, valueV, finalV. destruct (m s) as [[a s1] e1]. cbn.
  now destruct (f a s1) as [[c s2] e2].
Qed.

Lemma bindV_final {A B} (m : MV A) (f : A -> MV B) (s : vstate) :
  finalV (bindV m f s) = finalV (f (valueV (m s)) (finalV (m s))).
Proof.
  unfold bindV, valueV, finalV. destruct (m s) as [[a s1] e1]. cbn.
  now destruct (f a s1) as [[c s2] e2].
Qed.

Lemma bindV_events {A B} (m : MV A) (f : A -> MV B) (s : vstate) :
  eventsV (bindV m f s)
  = eventsV (m s) ++ eventsV (f (valueV (m s)) (finalV (m s))).
Proof.
  unfold bindV, valueV, finalV, eventsV. destruct (m s) as [[a s1] e1]. cbn.
  now destruct (f a s1) as [[c s2] e2].
Qed.

Lemma lift_value {A} (m : M A) (s : vstate) :
  valueV (lift m s) = value (m (net s)).
Proof. unfold lift, valueV, value. now destruct (m (net s)) as [[a n] e]. Qed.

Lemma lift_final {A} (m : M A) (s : vstate) :
  finalV (lift m s)
  = {| net := final (m (net s)); boletin_cache := boletin_cache s |}.
Proof. unfold lift, finalV, final. now destruct (m (net s)) as [[a n] e]. Qed.

Lemma lift_events {A} (m : M A) (s : vstate) :
  eventsV (lift m s) = events (m (net s)).
Proof. unfold lift, eventsV, events. now destruct (m (net s)) as [[a n] e]. Qed.

(** What a call of [fetch_votacion_detalle] does. *)
Lemma fetch_votacion_detalle_spec (v : string) (s : vstate) :
  exists n evs,
    finalV (fetch_votacion_detalle v s)
    = {| net := with_requests n (net s); boletin_cache := boletin_cache s |}
    /\ eventsV (fetch_votacion_detalle v s) = evs
    /\ fetch_trace (vote_url v) evs
    /\ (1 <= gets_of (vote_url v) evs)%nat
    /\ (forall d, valueV (fetch_votacion_detalle v s) = Some d ->
                  vote_id d = v).
Proof.
  unfold Votaciones.fetch_votacion_detalle.
  rewrite bindV_final, bindV_events, bindV_value.
  rewrite lift_value, lift_final, lift_events.
  destruct (fetch_content_spec requests_get (vote_url v) (net s))
    as (c & n & evs & Heq & Ht & Hg).
  rewrite Heq. unfold value, final, events. cbn [fst snd].
  destruct c as [body|].
  2:{ exists n, evs. cbn. rewrite ?app_nil_r.
      split; [reflexivity|]. split; [reflexivity|].
      split; [exact Ht|]. split; [exact Hg | discriminate]. }
  destruct (Text.truthy body); cbn [negb].
  2:{ exists n, evs. cbn. rewrite ?app_nil_r.
      split; [reflexivity|]. split; [reflexivity|].
      split; [exact Ht|]. split; [exact Hg | discriminate]. }
  rewrite bindV_final, bindV_events, bindV_value.
  rewrite lift_value, lift_final, lift_events.
  unfold parse_xml.
  destruct (ET_fromstring _) as [e|[root|]]; cbn.
  - exists n. eexists. split; [reflexivity|]. split; [reflexivity|].
    rewrite ?app_nil_r, gets_of_app.
    split; [|split; [lia | discriminate]].
    apply fetch_trace_app; [exact Ht | apply fetch_trace_error].
  - exists n, evs. rewrite ?app_nil_r.
    split; [reflexivity|]. split; [reflexivity|].
    split; [exact Ht|]. split; [exact Hg|].
    intros d Hd. injection Hd as <-. reflexivity.
  - exists n, evs. rewrite ?app_nil_r.
    split; [reflexivity|]. split; [reflexivity|].
    split; [exact Ht|]. split; [exact Hg | discriminate].
Qed.

(** X17.  [fetch_votacion_detalle] is not memoized: every call, in any
    state, issues at least one request for the vote's URL; it leaves
    [boletin_cache] alone, and a record it returns carries the vote id it
    was asked for. *)
Theorem fetch_votacion_detalle_always_fetches (v : string) (s : vstate) :
  (1 <= gets_of (vote_url v) (eventsV (fetch_votacion_detalle v s)))%nat /\
  boletin_cache (finalV (fetch_votacion_detalle v s)) = boletin_cache s /\
  (forall d, valueV (fetch_votacion_detalle v s) = Some d -> vote_id d = v).
Proof.
  destruct (fetch_votacion_detalle_spec v s)
    as (n & evs & Hf & He & _ & Hg & Hd).
  rewrite He, Hf. now repeat split.
Qed.

(** X18.  The two scripts read the same bulletin from a vote record: when
    the vote is not in the cache of the urgency script,
    [fetch_boletin_for_vote] returns the [boletin] of the record
    [fetch_votacion_detalle] builds in the same network state, and the
    empty string when it builds none. *)
Theorem scripts_agree_on_boletin (v : string) (s : vstate) :
  vote_to_boletin (net s) !! v = None ->
  value (fetch_boletin_for_vote requests_get ET_fromstring v (net s))
  = match valueV (fetch_votacion_detalle v s) with
    | Some d => boletin d
    | None => ""
    end.
Proof.
  intros Hnone.
  unfold fetch_boletin_for_vote. rewrite bind_value.
  change (value (read (fun s0 => vote_to_boletin s0 !! v) (net s)))
    with (vote_to_boletin (net s) !! v).
  change (final (read (fun s0 => vote_to_boletin s0 !! v) (net s)))
    with (net s).
  rewrite Hnone, bind_value.
  unfold Votaciones.fetch_votacion_detalle.
  rewrite bindV_value, lift_value, lift_final.
  destruct (value (fetch_content requests_get (vote_url v) (net s)))
    as [body|]; [|reflexivity].
  destruct (Text.truthy body); cbn [negb]; [|reflexivity].
  rewrite bind_value, bindV_value, lift_value.
  unfold parse_xml.
  destruct (ET_fromstring _) as [e|[root|]]; [reflexivity | | reflexivity].
  cbn. rewrite bind_value. reflexivity.
Qed.


Lemma fetch_votaciones_boletin_hit (b : string) (l : list bulletin_voting)
  (s : vstate) :
  b <> "" -> boletin_cache s !! b = Some l ->
  fetch_votaciones_boletin b s = (l, s, []).
Proof.
  intros Hb Hc. unfold Votaciones.fetch_votaciones_boletin.
  apply truthy_true in Hb. rewrite Hb. cbn [negb].
  unfold bindV, readV. rewrite Hc. reflexivity.
Qed.

(** X19.  [fetch_votaciones_boletin] stores the entries of a page that was
    fetched and parsed, also when there are none, and the next call for
    the bulletin returns them with no request. *)
Theorem parsed_votaciones_are_memoized (b : string) (soup : node)
  (s : vstate) :
  b <> "" ->
  boletin_cache s !! b = None ->
  page_of requests_get BeautifulSoup (votacion_boletin_url b) (net s)
  = Some soup ->
  valueV (fetch_votaciones_boletin b s) = votaciones_of_page b soup /\
  fetch_votaciones_boletin b (finalV (fetch_votaciones_boletin b s))
  = (votaciones_of_page b soup, finalV (fetch_votaciones_boletin b s), []).
Proof.
  intros Hb Hnone Hpage.
  assert (Hcall :
    valueV (fetch_votaciones_boletin b s) = votaciones_of_page b soup /\
    boletin_cache (finalV (fetch_votaciones_boletin b s)) !! b
    = Some (votaciones_of_page b soup)).
  { unfold Votaciones.fetch_votaciones_boletin, page_of in *.
    pose proof Hb as Ht. apply truthy_true in Ht. rewrite Ht. cbn [negb].
    rewrite bindV_value, bindV_final.
    change (valueV (readV (fun s0 => boletin_cache s0 !! b) s))
      with (boletin_cache s !! b).
    change (finalV (readV (fun s0 => boletin_cache s0 !! b) s)) with s.
    rewrite Hnone, bindV_value, bindV_final, lift_value, lift_final.
    destruct (value (fetch_content requests_get (votacion_boletin_url b)
                                   (net s))) as [body|]; [|discriminate].
    destruct (Text.truthy body); cbn [negb]; [|discriminate].
    rewrite bindV_value, bindV_final, lift_value, lift_final.
    unfold parse_html.
    destruct (BeautifulSoup body) as [e|soup']; [discriminate|].
    injection Hpage as ->. cbn. split; [reflexivity|].
    apply lookup_insert_eq. }
  destruct Hcall as [Hv Hc]. split; [exact Hv|].
  now apply fetch_votaciones_boletin_hit.
Qed.

(** *** The driver loop of the metadata script *)

Lemma details_warnings_app (e1 e2 : list event) :
  details_warnings (e1 ++ e2)
  = (details_warnings e1 + details_warnings e2)%nat.
Proof. unfold details_warnings. now rewrite List.filter_app, length_app. Qed.

Lemma attempt_is_no_details_warning (msg : string) :
  String.prefix "Attempt " msg = true ->
  String.prefix "Could not fetch details for vote_id " msg = false.
Proof.
  destruct msg as [|c msg]; [discriminate|].
  cbn [String.prefix].
  destruct (ascii_dec "A" c) as [<-|]; [|discriminate].
  intros _. reflexivity.
Qed.

Lemma details_warnings_fetcher (evs : list event) :
  Forall fetcher_event evs -> details_warnings evs = 0%nat.
Proof.
  unfold details_warnings.
  induction 1 as [|e evs He _ IH]; [reflexivity|].
  cbn [List.filter].
  destruct e as [d | u r | [| |] msg | p rows];
    cbn [is_details_warning fetcher_event] in *;
    try exact IH; try contradiction.
  now rewrite (attempt_is_no_details_warning msg He).
Qed.

Lemma prefix_append (p x : string) : String.prefix p (p +:+ x) = true.
Proof.
  induction p as [|c p IH]; [now destruct x|].
  rewrite append_cons. cbn [String.prefix].
  destruct (ascii_dec c c); [exact IH | congruence].
Qed.

Lemma failure_trace_fetcher (url : string) (sleep_time : Q) (todo : nat) :
  forall attempt n,
  Forall fetcher_event
         (failure_trace requests_get url sleep_time attempt n todo).
Proof.
  induction todo as [|todo IH]; intros attempt n; [constructor|].
  cbn [failure_trace]. apply Forall_app. split; [|apply IH].
  repeat constructor. cbn [fetcher_event]. apply prefix_append.
Qed.

Lemma fetch_content_fetcher (url : string) (s : state) :
  Forall fetcher_event (events (fetch_content requests_get url s)).
Proof.
  unfold fetch_content.
  destruct (attempts_cases requests_get url default_sleep_time
              (Z.to_nat default_retries) (requests s))
    as [Hall | (k & body & Hk & Hfail & Hok)].
  - rewrite (fetch_content_all_fail requests_get url _ _ s Hall).
    unfold events. cbn [snd]. apply Forall_app.
    split; [apply failure_trace_fetcher | repeat constructor].
  - rewrite (fetch_content_success requests_get url _ _ s k body
                                   Hk Hfail Hok).
    unfold events. cbn [snd]. apply Forall_app.
    split; [apply failure_trace_fetcher | repeat constructor].
Qed.

Lemma parse_xml_fetcher (body : string) (s : state) :
  Forall fetcher_event (events (parse_xml ET_fromstring body s)).
Proof.
  unfold parse_xml. destruct (ET_fromstring _); repeat constructor.
Qed.

Lemma parse_html_fetcher (body : string) (s : state) :
  Forall fetcher_event (events (parse_html BeautifulSoup body s)).
Proof.
  unfold parse_html. destruct (BeautifulSoup _); repeat constructor.
Qed.

Lemma fetch_votacion_detalle_fetcher (v : string) (s : vstate) :
  Forall fetcher_event (eventsV (fetch_votacion_detalle v s)).
Proof.
  unfold Votaciones.fetch_votacion_detalle.
  rewrite bindV_events, lift_events, lift_value.
  apply Forall_app. split; [apply fetch_content_fetcher|].
  destruct (value _) as [body|]; [|constructor].
  destruct (Text.truthy body); cbn [negb]; [|constructor].
  rewrite bindV_events, lift_events, lift_value.
  apply Forall_app. split; [apply parse_xml_fetcher|].
  destruct (value _); constructor.
Qed.

Lemma fetch_votaciones_boletin_fetcher (b : string) (s : vstate) :
  Forall fetcher_event (eventsV (fetch_votaciones_boletin b s)).
Proof.
  unfold Votaciones.fetch_votaciones_boletin.
  destruct (Text.truthy b); cbn [negb]; [|constructor].
  rewrite bindV_events. cbn [app readV eventsV snd].
  change (valueV (readV (fun s0 => boletin_cache s0 !! b) s))
    with (boletin_cache s !! b).
  destruct (boletin_cache s !! b); [constructor|].
  rewrite bindV_events, lift_events, lift_value.
  apply Forall_app. split; [apply fetch_content_fetcher|].
  destruct (value _) as [body|]; [|constructor].
  destruct (Text.truthy body); cbn [negb]; [|constructor].
  rewrite bindV_events, lift_events, lift_value.
  apply Forall_app. split; [apply parse_html_fetcher|].
  destruct (value _); [|constructor].
  rewrite bindV_events. constructor.
Qed.

Lemma votaciones_process_vote_outcome (v : string) (results : list meta_row)
  (s : vstate) :
  exists rows,
    valueV (votaciones_process_vote v results s) = results ++ rows /\
    Forall (fun r => row_vote_id r = v) rows /\
    (length rows
     + details_warnings (eventsV (votaciones_process_vote v results s))
     = 1)%nat.
Proof.
  unfold Votaciones.process_vote.
  rewrite bindV_value, bindV_events, details_warnings_app.
  rewrite (details_warnings_fetcher _ (fetch_votacion_detalle_fetcher v s)).
  destruct (valueV (fetch_votacion_detalle v s)) as [d|].
  - rewrite bindV_value, bindV_events, details_warnings_app.
    eexists [_]. split; [reflexivity|]. split; [repeat constructor|].
    cbn [length retV eventsV snd details_warnings List.filter].
    destruct (Text.truthy (boletin d)); [|reflexivity].
    rewrite bindV_events, details_warnings_app.
    now rewrite (details_warnings_fetcher
                   _ (fetch_votaciones_boletin_fetcher _ _)).
  - rewrite bindV_value, bindV_events, details_warnings_app, lift_events.
    exists []. rewrite app_nil_r. split; [reflexivity|].
    split; [exact (List.Forall_nil _)|].
    unfold details_warnings, logging, emit, events, eventsV, retV.
    cbn [snd List.filter is_details_warning].
    rewrite prefix_append. reflexivity.
Qed.

Lemma votaciones_for_votes_cons (v : string) (rest : list string)
  (results : list meta_row) (s : vstate) :
  votaciones_for_votes (v :: rest) results s
  = bindV (votaciones_process_vote v results)
          (fun r => votaciones_for_votes rest r) s.
Proof. reflexivity. Qed.

(** X20.  In the metadata script every seed ends in exactly one of two
    ways: one row carrying its vote id, or one "Could not fetch details"
    warning.  The rows come in seed order, and rows plus such warnings
    count the seeds. *)
Theorem votaciones_rows_and_warnings (vote_ids : list string)
  (results : list meta_row) (s : vstate) :
  exists rows,
    valueV (votaciones_for_votes vote_ids results s) = results ++ rows /\
    sublist (map row_vote_id rows) vote_ids /\
    (length rows
     + details_warnings (eventsV (votaciones_for_votes vote_ids results s))
     = length vote_ids)%nat.
Proof.
  revert results s.
  induction vote_ids as [|v rest IH]; intros results s.
  - exists []. rewrite app_nil_r. split; [reflexivity|].
    split; [constructor | reflexivity].
  - rewrite votaciones_for_votes_cons, bindV_value, bindV_events,
      details_warnings_app.
    destruct (votaciones_process_vote_outcome v results s)
      as (g & Hv & Hg & Hn).
    rewrite Hv.
    destruct (IH (results ++ g) (finalV (votaciones_process_vote v results s)))
      as (rows & Hrows & Hsub & Hcount).
    exists (g ++ rows). split; [now rewrite Hrows, app_assoc|].
    rewrite length_app, map_app. split; [|cbn [length]; lia].
    destruct g as [|r [|r' g]].
    + cbn. now apply sublist_cons.
    + cbn. apply Forall_cons in Hg as [Hr _]. rewrite Hr.
      now apply sublist_skip.
    + cbn in Hn. lia.
Qed.

End VotacionesOutcomes.

(** ** More concrete runs *)

Example votaciones_run :
  Votaciones.valueV
    (Votaciones.for_votes serve_scenario parse_record_9876
       parse_votaciones_page no_attributes ["12345"; "999"] []
       Votaciones.initial_vstate)
  = [ {| Votaciones.row_vote_id := "12345";
         Votaciones.row_boletin := "9876-06";
         Votaciones.row_fecha := "2022-08-12";
         Votaciones.tipo_votacion := "";
         Votaciones.row_resultado := "";
         Votaciones.row_quorum := "";
         Votaciones.row_sesion_id := "";
         Votaciones.row_sesion_numero := "";
         Votaciones.descripcion_articulo := "";
         Votaciones.contexto_tramite := "" |} ].
Proof. vm_compute. reflexivity. Qed.

Example votaciones_page_entries :
  Votaciones.votaciones_of_page "9876-06" votaciones_page
  = [ {| Votaciones.boletin_context := "9876-06";
         Votaciones.raw_data := "12 ago. 2022 | General | Aprobado | Simple" |} ].
Proof. vm_compute. reflexivity. Qed.

Lemma fetch_content_first_success_witness :
  value (fetch_content_with flaky "http://x" 3 (1 # 2) initial_state)
  = Some "<ok/>" /\
  gets_of "http://x"
    (events (fetch_content_with flaky "http://x" 3 (1 # 2) initial_state))
  = 2%nat /\
  warnings
    (events (fetch_content_with flaky "http://x" 3 (1 # 2) initial_state))
  = 1%nat /\
  List.filter (fun e => match e with Log ERROR _ => true | _ => false end)
    (events (fetch_content_with flaky "http://x" 3 (1 # 2) initial_state))
  = [].
Proof.
  apply (fetch_content_first_success flaky "http://x" 3 (1 # 2) initial_state
           1 "<ok/>").
  - discriminate.
  - vm_compute. lia.
  - intros [|j] Hj; [reflexivity | lia].
  - reflexivity.
Defined.

Lemma fetch_content_bounded_witness :
  (gets_of "http://x"
     (events (fetch_content_with flaky "http://x" 3 (1 # 2) initial_state))
   <= 3)%nat.
Proof.
  apply (proj1 (fetch_content_bounded flaky "http://x" 3 (1 # 2) initial_state
                  ltac:(discriminate))).
Defined.

Lemma positive_results_are_memoized_witness :
  fetch_boletin_for_vote serve_scenario parse_record_9876 "12345"
    (final (fetch_boletin_for_vote serve_scenario parse_record_9876 "12345"
                                   initial_state))
  = ("9876-06",
     final (fetch_boletin_for_vote serve_scenario parse_record_9876 "12345"
                                   initial_state), []).
Proof.
  apply (proj1 (positive_results_are_memoized
                  serve_scenario parse_record_9876 parse_scenario_page
                  scenario_query "12345" "9876-06" initial_state initial_state
                  ltac:(vm_compute; discriminate)
                  ltac:(vm_compute; discriminate))).
Defined.

Lemma parsed_urgencies_are_memoized_witness :
  value (fetch_urgencias serve_anything parse_page_without_link
                         "555" "9876-06" initial_state) = [] /\
  fetch_urgencias serve_anything parse_page_without_link "555" "9876-06"
    (final (fetch_urgencias serve_anything parse_page_without_link
                            "555" "9876-06" initial_state))
  = ([],
     final (fetch_urgencias serve_anything parse_page_without_link
                            "555" "9876-06" initial_state), []).
Proof.
  apply (parsed_urgencies_are_memoized
           serve_anything parse_page_without_link "555" "9876-06"
           page_without_link initial_state).
  - discriminate.
  - reflexivity.
  - vm_compute. reflexivity.
Defined.

Lemma cache_key_is_shared_witness :
  ("1_2", "3") <> ("1", "2_3") /\
  fetch_urgencias serve_anything parse_urgencias_page "1" "2_3"
    (final (fetch_urgencias serve_anything parse_urgencias_page
                            "1_2" "3" initial_state))
  = (urgencies_of_page urgencias_page,
     final (fetch_urgencias serve_anything parse_urgencias_page
                            "1_2" "3" initial_state), []).
Proof.
  split; [discriminate|].
  apply (cache_key_is_shared
           serve_anything parse_urgencias_page "1_2" "3" "1" "2_3"
           urgencias_page initial_state).
  - discriminate.
  - discriminate.
  - reflexivity.
  - reflexivity.
  - vm_compute. reflexivity.
Defined.

Lemma missing_project_id_warns_witness :
  value (process_vote serve_without_link parse_record_9876
           parse_page_without_link no_query "1" [] initial_state) = [] /\
  last (events (process_vote serve_without_link parse_record_9876
                  parse_page_without_link no_query "1" [] initial_state))
  = Some (Log WARNING "Could not find project ID for boletin 9876-06").
Proof.
  destruct (missing_project_id_warns
              serve_without_link parse_record_9876 parse_page_without_link
              no_query "1" [] initial_state "9876-06")
    as (Hv & He & _).
  - vm_compute. reflexivity.
  - discriminate.
  - vm_compute. reflexivity.
  - split; [exact Hv|]. rewrite He. vm_compute. reflexivity.
Defined.

Lemma run_extends_caches_witness :
  grows initial_state
    (final (for_votes serve_scenario parse_record_9876 parse_scenario_page
                      scenario_query ["12345"; "12346"] [] initial_state)) /\
  cache_ok
    (final (for_votes serve_scenario parse_record_9876 parse_scenario_page
                      scenario_query ["12345"; "12346"] [] initial_state)).
Proof.
  apply (run_extends_caches
           serve_scenario parse_record_9876 parse_scenario_page scenario_query
           ["12345"; "12346"] [] initial_state cache_ok_initial).
Defined.

Lemma scripts_agree_on_boletin_witness :
  value (fetch_boletin_for_vote serve_scenario parse_record_9876 "12345"
                                initial_state)
  = match Votaciones.valueV
            (Votaciones.fetch_votacion_detalle
               serve_scenario parse_record_9876 no_attributes "12345"
               Votaciones.initial_vstate) with
    | Some d => Votaciones.boletin d
    | None => ""
    end.
Proof.
  apply (scripts_agree_on_boletin
           serve_scenario parse_record_9876 no_attributes "12345"
           Votaciones.initial_vstate).
  reflexivity.
Defined.

Lemma parsed_votaciones_are_memoized_witness :
  Votaciones.valueV
    (Votaciones.fetch_votaciones_boletin serve_anything parse_votaciones_page
       "9876-06" Votaciones.initial_vstate)
  = Votaciones.votaciones_of_page "9876-06" votaciones_page /\
  Votaciones.fetch_votaciones_boletin serve_anything parse_votaciones_page
    "9876-06"
    (Votaciones.finalV
       (Votaciones.fetch_votaciones_boletin serve_anything
          parse_votaciones_page "9876-06" Votaciones.initial_vstate))
  = (Votaciones.votaciones_of_page "9876-06" votaciones_page,
     Votaciones.finalV
       (Votaciones.fetch_votaciones_boletin serve_anything
          parse_votaciones_page "9876-06" Votaciones.initial_vstate), []).
Proof.
  apply (parsed_votaciones_are_memoized
           serve_anything parse_votaciones_page "9876-06" votaciones_page
           Votaciones.initial_vstate).
  - discriminate.
  - reflexivity.
  - vm_compute. reflexivity.
Defined.

Lemma resolved_seed_replays_from_cache_witness :
  process_vote serve_scenario parse_record_9876 parse_scenario_page
    scenario_query "12345" []
    (final (process_vote serve_scenario parse_record_9876
              parse_scenario_page scenario_query "12345" [] initial_state))
  = ([] ++ rows_for "12345" "9876-06" "555"
             (urgencies_of_page urgencias_page),
     final (process_vote serve_scenario parse_record_9876
              parse_scenario_page scenario_query "12345" [] initial_state),
     []).
Proof.
  apply (resolved_seed_replays_from_cache
           serve_scenario parse_record_9876 parse_scenario_page scenario_query
           "12345" [] [] initial_state "9876-06" "555"
           (urgencies_of_page urgencias_page)).
  - vm_compute. reflexivity.
  - discriminate.
  - vm_compute. reflexivity.
  - discriminate.
  - vm_compute. reflexivity.
Defined.
